(** * xpm-liquid: the substitution map and the expansion loop

    A shallow embedding of [src/lib/xpm-liquid.ts]: the three path
    sanitization filters, the flattening of multi-line properties, the
    construction of the substitution map ([prepareMap]) and the
    repeat-until-stable expansion loop ([performSubstitutions]).

    Strings.  A JavaScript string is a sequence of UTF-16 code units.  The
    embedding uses [string], whose characters are the code units 0..255;
    the code treats every code unit above 255 like any other character
    outside the classes and markers it looks for.

    Objects.  A JavaScript object read as data is a finite map from its own
    string keys to values ([gmap string _]).  The members inherited from
    the built-in prototypes are no descriptor data, but the code meets them
    in two places, which the embedding follows: a read by a computed key
    ([Js.index]) finds them, and an assignment to the key [__proto__]
    ([Js.assign]) goes to the inherited setter. *)

From Stdlib Require Import Ascii.
From stdpp Require Import gmap strings list fin_maps pretty.

Set Warnings "-register-all".

Local Open Scope string_scope.

(** ** Strings *)

Module Str.

(** [s.includes(sub)]: [sub] occurs in [s] at some position. *)
Fixpoint includes (s sub : string) : bool :=
  String.prefix sub s
  || match s with
     | EmptyString => false
     | String _ rest => includes rest sub
     end.

(** [lines.join(sep)] on an array of strings. *)
Fixpoint join (sep : string) (lines : list string) : string :=
  match lines with
  | [] => ""
  | [x] => x
  | x :: rest => x +:+ sep +:+ join sep rest
  end.

(** White space and line terminators, as [String.prototype.trim] sees them
    among the code units 0..255: TAB, LF, VT, FF, CR, SP and NBSP. *)
Definition isWhiteSpace (c : ascii) : bool :=
  bool_decide (Ascii.nat_of_ascii c ∈ [9; 10; 11; 12; 13; 32; 160]).

Fixpoint trimStart (s : string) : string :=
  match s with
  | EmptyString => EmptyString
  | String c rest => if isWhiteSpace c then trimStart rest else s
  end.

Definition trimEnd (s : string) : string :=
  String.rev (trimStart (String.rev s)).

(** [s.trim()] *)
Definition trim (s : string) : string := trimEnd (trimStart s).

End Str.

(** ** Global replacement with a regular expression

    [input.replace(/re/g, rep)] scans the input from left to right; at each
    position where the expression matches, the match is replaced and the
    scan resumes after it; a character where it does not match is copied.
    A [Matcher] gives, for the rest of the input at the current position,
    the length of the match that starts there.  Both expressions of this
    file match at least one character. *)

Module Regex.

Definition Matcher := string → option nat.

(** [[^...]+]: the longest run of characters outside the class, at least
    one ([+] is greedy and the class has no alternative to back off to). *)
Fixpoint runLength (inClass : ascii → bool) (s : string) : nat :=
  match s with
  | EmptyString => 0
  | String c rest => if inClass c then 0 else S (runLength inClass rest)
  end.

Definition negatedClassPlus (inClass : ascii → bool) : Matcher :=
  fun s => match runLength inClass s with
           | 0 => None
           | n => Some n
           end.

(** a literal pattern, such as [/--/] *)
Definition literal (lit : string) : Matcher :=
  fun s => if String.prefix lit s then Some (String.length lit) else None.

(** [skip] counts the characters of the current match still to be passed
    over. *)
Fixpoint replaceFrom (m : Matcher) (rep : string) (skip : nat) (s : string)
  : string :=
  match s with
  | EmptyString => EmptyString
  | String c rest =>
      match skip with
      | S k => replaceFrom m rep k rest
      | 0 =>
          match m s with
          | Some (S n) => rep +:+ replaceFrom m rep n rest
          | _ => String c (replaceFrom m rep 0 rest)
          end
      end
  end.

Definition replaceAll (m : Matcher) (rep : string) (s : string) : string :=
  replaceFrom m rep 0 s.

End Regex.

(** ** The host

    What the ambient [os], [path] and [process] modules answer, and what
    the runtime has; read once per call, never written. *)

Record OsInfo := {
  EOL : string;
  arch : string;
  constants : gmap string (gmap string string);
  cpus : list (gmap string string);
  endianness : string;
  homedir : string;
  hostname : string;
  platform : string;
  release : string;
  tmpdir : string;
  type : string;
  version : string
}.

Record PathConvention := {
  delimiter : string;
  sep : string
}.

Record PathInfo := {
  native : PathConvention;
  win32 : PathConvention;
  posix : PathConvention
}.

Record Host := {
  process_env : gmap string string;
  os_module : OsInfo;
  (** [typeof os.version === 'function']: the runtime has [os.version]
      (Node 12 and later); [version (os_module _)] is what it returns *)
  os_has_version : bool;
  path_module : PathInfo;
  (** the names of the members of [Array.prototype] and of
      [String.prototype], which grow with the edition of the language the
      runtime implements *)
  array_members : list string;
  string_members : list string
}.

(** ** The sanitization filters *)

Definition isAlnum (c : ascii) : bool :=
  (("a" <=? c) && (c <=? "z") || ("A" <=? c) && (c <=? "Z")
   || ("0" <=? c) && (c <=? "9"))%char.

(** the class [[a-zA-Z0-9/]] *)
Definition posixClass (c : ascii) : bool :=
  isAlnum c || (c =? "/")%char.

(** the class [[a-zA-Z0-9\\:]] *)
Definition win32Class (c : ascii) : bool :=
  isAlnum c || (c =? "\")%char || (c =? ":")%char.

Definition collapseDashes (fixed : string) : string :=
  Regex.replaceAll (Regex.literal "--") "-" fixed.

Definition filterPath (host : Host) (input : string) : string :=
  let fixed :=
    if (platform (os_module host) =? "win32")%string
    then Regex.replaceAll (Regex.negatedClassPlus win32Class) "-" input
    else Regex.replaceAll (Regex.negatedClassPlus posixClass) "-" input in
  collapseDashes fixed.

Definition filterPosixPath (input : string) : string :=
  let fixed := Regex.replaceAll (Regex.negatedClassPlus posixClass) "-" input in
  collapseDashes fixed.

Definition filterWin32Path (input : string) : string :=
  let fixed := Regex.replaceAll (Regex.negatedClassPlus win32Class) "-" input in
  collapseDashes fixed.

(** ** Values and exceptions *)

(** The package descriptor is JSON data, as [JSON.parse] returns it.  The
    code never computes with a number; it can only print one, so a number
    is carried as the text [String(n)] gives for it. *)
Inductive Json :=
  | JNull
  | JBool (b : bool)
  | JNum (shown : string)
  | JStr (s : string)
  | JArr (items : list Json)
  | JObj (fields : gmap string Json).

(** A value that may be [undefined]. *)
Abbreviation Value := (option Json).
Abbreviation undefined := (@None Json).

Inductive Exception :=
  | AssertionError (message : option string)
  | Error (message : string)
  | TypeError
  | LiquidError (message : string).

Inductive Outcome (A : Type) :=
  | Returned (a : A)
  | Thrown (e : Exception).
Arguments Returned {A} a.
Arguments Thrown {A} e.

#[global] Instance Outcome_ret : MRet Outcome := @Returned.
#[global] Instance Outcome_bind : MBind Outcome := fun A B f o =>
  match o with
  | Returned a => f a
  | Thrown e => Thrown e
  end.
#[global] Instance Outcome_fmap : FMap Outcome := fun A B f o =>
  match o with
  | Returned a => Returned (f a)
  | Thrown e => Thrown e
  end.

Module Js.

(** truthiness, as [assert(value)] tests it *)
Definition truthy (v : Value) : bool :=
  match v with
  | None | Some JNull => false
  | Some (JBool b) => b
  | Some (JNum shown) => negb (bool_decide (shown ∈ ["0"; "NaN"]))
  | Some (JStr s) => negb (s =? "")%string
  | Some (JArr _) | Some (JObj _) => true
  end.

(** the index below [n] that the key spells in decimal, if any *)
Definition arrayIndex (n : nat) (key : string) : option nat :=
  find (fun i => bool_decide (pretty i = key)) (seq 0 n).

(** [v.key] on the own properties of [v]; reading a property of
    [undefined] or [null] raises a [TypeError].  This is the whole read for
    the three fixed keys the code reads ([xpack], [properties],
    [buildConfigurations]), which no built-in prototype has; a read by a
    computed key is [index] below. *)
Definition get (v : Value) (key : string) : Outcome Value :=
  match v with
  | None | Some JNull => Thrown TypeError
  | Some (JBool _) | Some (JNum _) => Returned undefined
  | Some (JStr s) =>
      Returned
        (if (key =? "length")%string then Some (JNum (pretty (String.length s)))
         else i ← arrayIndex (String.length s) key;
              c ← String.get i s;
              Some (JStr (String c EmptyString)))
  | Some (JArr items) =>
      Returned
        (if (key =? "length")%string then Some (JNum (pretty (length items)))
         else i ← arrayIndex (length items) key; items !! i)
  | Some (JObj fields) => Returned (fields !! key)
  end.

(** the own enumerable properties of a value: the fields of an object, the
    elements of an array and the characters of a string under their
    indices *)
Definition ownEnumerable (v : Json) : gmap string Json :=
  match v with
  | JObj fields => fields
  | JArr items => list_to_map (imap (fun i x => (pretty i, x)) items)
  | JStr s =>
      list_to_map
        (imap (fun i c => (pretty i, JStr (String c EmptyString)))
              (String.list_ascii_of_string s))
  | JNull | JBool _ | JNum _ => ∅
  end.

(** [Object.entries(v)]; [undefined] and [null] raise a [TypeError]. *)
Definition entries (v : Value) : Outcome (gmap string Json) :=
  match v with
  | None | Some JNull => Thrown TypeError
  | Some v => Returned (ownEnumerable v)
  end.

(** What a read by a computed key finds: nothing ([undefined]), a value
    of the data, or a member inherited from a built-in prototype: a method,
    or the prototype itself for [__proto__]. *)
Inductive Member :=
  | Absent
  | Data (value : Json)
  | Builtin.

(** the members of [Object.prototype] *)
Definition objectPrototype : list string :=
  ["constructor"; "__defineGetter__"; "__defineSetter__"; "hasOwnProperty";
   "__lookupGetter__"; "__lookupSetter__"; "isPrototypeOf";
   "propertyIsEnumerable"; "toString"; "valueOf"; "__proto__";
   "toLocaleString"].

(** the members of [Number.prototype] and of [Boolean.prototype] *)
Definition numberPrototype : list string :=
  ["constructor"; "toExponential"; "toFixed"; "toPrecision"; "toString";
   "valueOf"; "toLocaleString"].
Definition booleanPrototype : list string :=
  ["constructor"; "toString"; "valueOf"].

(** [key] is a member of the prototype chain of [v]: of the prototype of
    its kind, or of [Object.prototype], where every chain ends. *)
Definition inherited (host : Host) (v : Json) (key : string) : bool :=
  let ofKind :=
    match v with
    | JArr _ => array_members host
    | JStr _ => string_members host
    | JNum _ => numberPrototype
    | JBool _ => booleanPrototype
    | JNull | JObj _ => []
    end in
  bool_decide (key ∈ (ofKind ++ objectPrototype)%list).

(** [v[key]] for a computed key: an own property first, then the
    prototype chain; [undefined] and [null] raise a [TypeError]. *)
Definition index (host : Host) (v : Value) (key : string) : Outcome Member :=
  own ← get v key;
  Returned
    match own, v with
    | Some value, _ => Data value
    | None, Some receiver =>
        if inherited host receiver key then Builtin else Absent
    | None, None => Absent
    end.

(** [member === undefined] *)
Definition isAbsent (member : Member) : bool :=
  match member with
  | Absent => true
  | Data _ | Builtin => false
  end.

(** the spread [{...member}]; [undefined] and [null] contribute nothing,
    and a built-in method or prototype has no enumerable property of its
    own. *)
Definition spread (member : Member) : gmap string Json :=
  match member with
  | Data v => ownEnumerable v
  | Absent | Builtin => ∅
  end.

(** [member.properties]: no built-in method or prototype has a member
    [properties]. *)
Definition getProperties (member : Member) : Outcome Value :=
  match member with
  | Absent => Thrown TypeError
  | Data v => get (Some v) "properties"
  | Builtin => Returned undefined
  end.

(** [result[key] = value] on an object made by [{}].  The key [__proto__]
    is the accessor that the object inherits from [Object.prototype]: the
    assignment calls its setter, which changes the prototype of the object
    (for an object or [null]) or does nothing, and no own property is
    stored. *)
Definition assign (result : gmap string Json) (key : string) (value : Json)
  : gmap string Json :=
  if (key =? "__proto__")%string then result else <[key := value]> result.

Definition mapM {A B} (f : A → Outcome B) : list A → Outcome (list B) :=
  fix go (l : list A) : Outcome (list B) :=
    match l with
    | [] => Returned []
    | x :: rest =>
        match f x with
        | Returned y =>
            match go rest with
            | Returned ys => Returned (y :: ys)
            | Thrown e => Thrown e
            end
        | Thrown e => Thrown e
        end
    end.

(** [ToString]: a string is itself; an array prints as its elements joined
    with commas, [null] elements as the empty string; a plain object prints
    as [[object Object]], unless an own [toString] field, which is data and
    not callable, hides the inherited method: then the conversion raises a
    [TypeError]. *)
Fixpoint ToString (v : Json) : Outcome string :=
  match v with
  | JNull => Returned "null"
  | JBool b => Returned (if b then "true" else "false")
  | JNum shown => Returned shown
  | JStr s => Returned s
  | JArr items =>
      Str.join "," <$>
        mapM (fun x => match x with
                       | JNull => Returned ""
                       | _ => ToString x
                       end) items
  | JObj fields =>
      match fields !! "toString" with
      | Some _ => Thrown TypeError
      | None => Returned "[object Object]"
      end
  end.

(** [items.join(separator)] *)
Definition join (items : list Json) (separator : string) : Outcome string :=
  Str.join separator <$>
    mapM (fun x => match x with
                   | JNull => Returned ""
                   | _ => ToString x
                   end) items.

End Js.

(** ** General purpose functions *)

(** [value !== undefined] *)
Definition isDefined (value : Value) : bool :=
  match value with
  | Some _ => true
  | None => false
  end.

(** [typeof value] is ['object'] for [null], arrays and objects, and never
    ['function'] for JSON data. *)
Definition _isPrimitive (value : Value) : bool :=
  match value with
  | Some (JArr _) | Some (JObj _) => false
  | _ => true
  end.

Definition isArray (value : Value) : bool :=
  match value with
  | Some (JArr _) => true
  | _ => false
  end.

Definition _isJsonObject (value : Value) : bool :=
  isDefined value && negb (_isPrimitive value) && negb (isArray value).

(** [Object.entries(properties).forEach(([key, value]) => ...)] fills a
    fresh object; a conversion that raises ends the loop. *)
Definition _joinMultiLineProperties (host : Host) (properties : Value)
  : Outcome (gmap string Json) :=
  own ← Js.entries properties;
  map_fold
    (fun key value (done : Outcome (gmap string Json)) =>
       result ← done;
       flat ← match value with
              | JArr lines => JStr <$> Js.join lines (EOL (os_module host))
              | _ => Returned value
              end;
       Returned (Js.assign result key flat))
    (Returned ∅)
    own.

(** ** The substitution map *)

Record XpmLiquidMap := {
  env : gmap string string;
  os : OsInfo;
  path : PathInfo;
  package : Value;
  configuration : option (gmap string Json);
  properties : option (gmap string Json)
}.

Definition set_properties (m : XpmLiquidMap) (p : gmap string Json)
  : XpmLiquidMap :=
  {| env := env m; os := os m; path := path m; package := package m;
     configuration := configuration m; properties := Some p |}.

Definition set_configuration (m : XpmLiquidMap) (c : gmap string Json)
  : XpmLiquidMap :=
  {| env := env m; os := os m; path := path m; package := package m;
     configuration := Some c; properties := properties m |}.

(** [liquidMap.properties], which [prepareMap] has set before it reads it *)
Definition get_properties (m : XpmLiquidMap) : gmap string Json :=
  default ∅ (properties m).

Definition prepareMap (host : Host) (packageJson : Value)
    (buildConfigurationName : option string) : Outcome XpmLiquidMap :=
  if negb (Js.truthy packageJson) then Thrown (AssertionError None) else
  if negb (os_has_version host)
  then Thrown (AssertionError
                 (Some "Mandatory os.version available only since 12.x"))
  else
  let liquidMap :=
    {| env := process_env host;
       os := os_module host;
       path := path_module host;
       package := packageJson;
       configuration := None;
       properties := None |} in
  let liquidMap := set_properties liquidMap ∅ in
  xpack ← Js.get packageJson "xpack";
  if _isJsonObject xpack then
    xpack_properties ← Js.get xpack "properties";
    liquidMap ←
      (if _isJsonObject xpack_properties then
         flat ← _joinMultiLineProperties host xpack_properties;
         Returned (set_properties liquidMap flat)
       else Returned liquidMap);
    match buildConfigurationName with
    | Some name =>
        (* [undefined] and [null] are [None] *)
        if negb (Str.trim name =? "")%string then
          buildConfigurations ← Js.get xpack "buildConfigurations";
          if negb (isDefined buildConfigurations) then
            Thrown (Error "package.json has no buildConfigurations")
          else
          buildConfiguration ← Js.index host buildConfigurations name;
          if Js.isAbsent buildConfiguration then
            Thrown (Error ("package.json has no buildConfiguration." +:+ name))
          else
          let liquidMap :=
            set_configuration liquidMap
              (<["name" := JStr name]> (Js.spread buildConfiguration)) in
          configuration_properties ← Js.getProperties buildConfiguration;
          if _isJsonObject configuration_properties then
            flat ← _joinMultiLineProperties host configuration_properties;
            Returned
              (set_properties liquidMap (flat ∪ get_properties liquidMap))
          else Returned liquidMap
        else Returned liquidMap
    | None => Returned liquidMap
    end
  else Returned liquidMap.

(** ** The expansion loop *)

Definition hasMarkers (current : string) : bool :=
  Str.includes current "{{" || Str.includes current "{%".

(** One run of the loop, observed after at most [fuel] iterations: how it
    ended ([None]: it is still iterating) and the inputs of the render calls
    made so far, in order. *)
Record Run := {
  ended : option (Outcome string);
  calls : list string
}.

Section Driver.

(** [this.engine.parseAndRender]: the rendering capability; it may throw. *)
Variable parseAndRender : string → XpmLiquidMap → Outcome string.

Fixpoint renderLoop (fuel : nat) (map : XpmLiquidMap)
    (current substituted : string) (made : list string) : Run :=
  if hasMarkers current then
    match fuel with
    | 0 => {| ended := None; calls := made |}
    | S fuel' =>
        match parseAndRender current map with
        | Thrown e => {| ended := Some (Thrown e); calls := made ++ [current] |}
        | Returned substituted =>
            if (substituted =? current)%string
            then {| ended := Some (Returned substituted);
                    calls := made ++ [current] |}
            else renderLoop fuel' map substituted substituted
                            (made ++ [current])
        end
    end
  else {| ended := Some (Returned substituted); calls := made |}.

(** [map] is a record, so [assert(map)] holds. *)
Definition performSubstitutions (fuel : nat) (input : string)
    (map : XpmLiquidMap) : Run :=
  if (input =? "")%string then {| ended := Some (Returned input); calls := [] |}
  else renderLoop fuel map input input [].

End Driver.

(** ** Predicates of the statements *)

(** A sanitized string: every character is in the class or is a dash, and
    no dash follows a dash.  [afterDash] tells that the character before
    the string is a dash. *)
Fixpoint tidy (inClass : ascii → bool) (afterDash : bool) (s : string) : bool :=
  match s with
  | EmptyString => true
  | String c rest =>
      if inClass c then tidy inClass false rest
      else (c =? "-")%char && negb afterDash && tidy inClass true rest
  end.

(** The declared type [Properties]: every value is a string or an array of
    strings. *)
Definition isProperties (obj : gmap string Json) : Prop :=
  ∀ key value, obj !! key = Some value →
    (∃ s, value = JStr s) ∨ (∃ lines, value = JArr (JStr <$> lines)).

(** A [properties] member, where it is an object, has the declared type. *)
Definition typedProperties (value : Value) : Prop :=
  ∀ obj, value = Some (JObj obj) → isProperties obj.

(** Where the loop stops: no marker is left, or rendering changes
    nothing. *)
Definition stabilized (parseAndRender : string → XpmLiquidMap → Outcome string)
    (map : XpmLiquidMap) (s : string) : Prop :=
  hasMarkers s = false ∨ parseAndRender s map = Returned s.

(** Render calls that each returned something else than they were given,
    on a string with a marker. *)
Definition advancing (parseAndRender : string → XpmLiquidMap → Outcome string)
    (map : XpmLiquidMap) (made : list string) : Prop :=
  ∀ c, c ∈ made →
    hasMarkers c = true
    ∧ ∃ out, parseAndRender c map = Returned out ∧ out ≠ c.

(** ** Sample hosts and descriptors *)

Module Samples.

Definition LF : string := String (ascii_of_nat 10) EmptyString.
Definition CRLF : string := String (ascii_of_nat 13) LF.

(** the members of [Array.prototype] and of [String.prototype] in
    Node 18 *)
Definition node18Array : list string :=
  ["length"; "constructor"; "at"; "concat"; "copyWithin"; "fill"; "find";
   "findIndex"; "findLast"; "findLastIndex"; "lastIndexOf"; "pop"; "push";
   "reverse"; "shift"; "unshift"; "slice"; "sort"; "splice"; "includes";
   "indexOf"; "join"; "keys"; "entries"; "values"; "forEach"; "filter";
   "flat"; "flatMap"; "map"; "every"; "some"; "reduce"; "reduceRight";
   "toLocaleString"; "toString"].
Definition node18String : list string :=
  ["length"; "constructor"; "anchor"; "at"; "big"; "blink"; "bold";
   "charAt"; "charCodeAt"; "codePointAt"; "concat"; "endsWith"; "fontcolor";
   "fontsize"; "fixed"; "includes"; "indexOf"; "italics"; "lastIndexOf";
   "link"; "localeCompare"; "match"; "matchAll"; "normalize"; "padEnd";
   "padStart"; "repeat"; "replace"; "replaceAll"; "search"; "slice";
   "small"; "split"; "strike"; "sub"; "substr"; "substring"; "sup";
   "startsWith"; "toString"; "trim"; "trimStart"; "trimLeft"; "trimEnd";
   "trimRight"; "toLocaleLowerCase"; "toLocaleUpperCase"; "toLowerCase";
   "toUpperCase"; "valueOf"].

Definition linux : Host :=
  {| process_env := {[ "HOME" := "/home/ilg" ]};
     os_module :=
       {| EOL := LF; arch := "x64"; constants := ∅; cpus := [];
          endianness := "LE"; homedir := "/home/ilg"; hostname := "build";
          platform := "linux"; release := "6.1.0"; tmpdir := "/tmp";
          type := "Linux"; version := "#1 SMP" |};
     os_has_version := true;
     path_module :=
       {| native := {| delimiter := ":"; sep := "/" |};
          win32 := {| delimiter := ";"; sep := "\" |};
          posix := {| delimiter := ":"; sep := "/" |} |};
     array_members := node18Array;
     string_members := node18String |}.

Definition windows : Host :=
  {| process_env := ∅;
     os_module :=
       {| EOL := CRLF; arch := "x64"; constants := ∅; cpus := [];
          endianness := "LE"; homedir := "C:\Users\ilg"; hostname := "build";
          platform := "win32"; release := "10.0"; tmpdir := "C:\Temp";
          type := "Windows_NT"; version := "Windows 10" |};
     os_has_version := true;
     path_module :=
       {| native := {| delimiter := ";"; sep := "\" |};
          win32 := {| delimiter := ";"; sep := "\" |};
          posix := {| delimiter := ":"; sep := "/" |} |};
     array_members := node18Array;
     string_members := node18String |}.

(** [{xpack: {properties: {a: "1"},
              buildConfigurations: {dev: {properties: {b: "2"}}}}}] *)
Definition base : gmap string Json := {[ "a" := JStr "1" ]}.
Definition overlay : gmap string Json := {[ "b" := JStr "2" ]}.
Definition dev : gmap string Json := {[ "properties" := JObj overlay ]}.
Definition configurations : gmap string Json := {[ "dev" := JObj dev ]}.
Definition xpack : gmap string Json :=
  {[ "properties" := JObj base; "buildConfigurations" := JObj configurations ]}.
Definition manifest : gmap string Json := {[ "xpack" := JObj xpack ]}.
Definition descriptor : Value := Some (JObj manifest).

(** [{xpack: {properties: {a: "1"}}}] *)
Definition xpackOnlyProperties : gmap string Json :=
  {[ "properties" := JObj base ]}.
Definition noConfigurations : gmap string Json :=
  {[ "xpack" := JObj xpackOnlyProperties ]}.

(** [{name: "demo"}], a descriptor without an [xpack] member *)
Definition plain : gmap string Json := {[ "name" := JStr "demo" ]}.

(** [{xpack: {buildConfigurations: {dev: {name: "other", target: "host"}}}}]:
    a configuration with a [name] field of its own *)
Definition namedEntry : gmap string Json :=
  {[ "name" := JStr "other"; "target" := JStr "host" ]}.
Definition namedXpack : gmap string Json :=
  {[ "buildConfigurations" := JObj {[ "dev" := JObj namedEntry ]} ]}.
Definition named : gmap string Json := {[ "xpack" := JObj namedXpack ]}.

(** [{xpack: {buildConfigurations: {" ": {target: "host"}}}}]: a
    configuration whose key is a single space *)
Definition blankEntry : gmap string Json := {[ "target" := JStr "host" ]}.
Definition blankConfigurations : gmap string Json :=
  {[ " " := JObj blankEntry ]}.
Definition blankKey : gmap string Json :=
  {[ "xpack" := JObj {[ "buildConfigurations" := JObj blankConfigurations ]} ]}.

(** [{multi: ["line1", "line2"], single: "x"}] *)
Definition multiLine : gmap string Json :=
  {[ "multi" := JArr [JStr "line1"; JStr "line2"]; "single" := JStr "x" ]}.

(** a render capability whose output is always the same plain text *)
Definition constant : string → XpmLiquidMap → Outcome string :=
  fun _ _ => Returned "done".

(** a render capability that expands [{{ a }}] to [{{ b }}] and fails on
    everything else, as the engine does in strict mode *)
Definition failing : string → XpmLiquidMap → Outcome string :=
  fun current _ =>
    if (current =? "{{ a }}")%string then Returned "{{ b }}"
    else Thrown (LiquidError "undefined variable: b").

(** a render capability that always prepends one character: what the
    engine does with [{{ a }}] when the property [a] is [x{{ a }}] *)
Definition growing : string → XpmLiquidMap → Outcome string :=
  fun current _ => Returned (String "x" current).

(** the map of [descriptor] without a configuration *)
Definition map : XpmLiquidMap :=
  {| env := process_env linux; os := os_module linux;
     path := path_module linux; package := descriptor;
     configuration := None;
     properties := Some {[ "a" := JStr "1" ]} |}.

End Samples.

(** ** A plugin of the tests

    [tests/mock/rot13.mjs] registers the filter [rot13]:
    [x.replace(/[a-z]/gi, (letter) => String.fromCharCode(...))]. *)

(** [input.replace(/re/g, f)]: as [Regex.replaceFrom], the replacement of
    a match being computed from its text. *)
Fixpoint replaceFromWith (m : Regex.Matcher) (f : string → string)
    (skip : nat) (s : string) : string :=
  match s with
  | EmptyString => EmptyString
  | String c rest =>
      match skip with
      | S k => replaceFromWith m f k rest
      | 0 =>
          match m s with
          | Some (S n) => f (String.substring 0 (S n) s)
                          +:+ replaceFromWith m f n rest
          | _ => String c (replaceFromWith m f 0 rest)
          end
      end
  end.

Module Rot13.

(** the class [[a-z]] under the flag [i]: without the flag [u] a code unit
    above 127 never matches an ASCII letter, so these are the 52 letters *)
Definition isLetter (c : ascii) : bool :=
  (("a" <=? c) && (c <=? "z") || ("A" <=? c) && (c <=? "Z"))%char.

(** [/[a-z]/i] at the head of the rest of the input *)
Definition letter : Regex.Matcher :=
  fun s => match s with
           | String c _ => if isLetter c then Some 1 else None
           | EmptyString => None
           end.

(** [toLowerCase] of a code unit below 256: the capital letters of ASCII
    and of Latin-1 (192..222 but the multiplication sign 215) move up by
    32 *)
Definition toLowerCase (c : ascii) : ascii :=
  let n := nat_of_ascii c in
  if (65 <=? n)%nat && (n <=? 90)%nat
     || (192 <=? n)%nat && (n <=? 222)%nat && negb (n =? 215)%nat
  then ascii_of_nat (n + 32) else c.

(** [String.fromCharCode(letter.charCodeAt(0) +
      (letter.toLowerCase() <= 'm' ? 13 : -13))] *)
Definition rotate (letter : string) : string :=
  match letter with
  | String c _ =>
      let code := Z.of_nat (nat_of_ascii c) in
      let shifted :=
        (code + (if (toLowerCase c <=? "m")%char then 13 else -13))%Z in
      String (ascii_of_nat (Z.to_nat (shifted `mod` 65536))) EmptyString
  | EmptyString => EmptyString
  end.

Definition rot13 (x : string) : string :=
  replaceFromWith letter rotate 0 x.

End Rot13.

(** ** More predicates of the statements *)

(** the characters of [s] that satisfy [p], in order *)
Fixpoint keepChars (p : ascii → bool) (s : string) : string :=
  match s with
  | EmptyString => EmptyString
  | String c rest =>
      if p c then String c (keepChars p rest) else keepChars p rest
  end.

(** [f] applied to every character of [s] *)
Fixpoint mapChars (f : ascii → ascii) (s : string) : string :=
  match s with
  | EmptyString => EmptyString
  | String c rest => String (f c) (mapChars f rest)
  end.

(** what [rot13] makes of one character: a letter is rotated, any other
    character is kept *)
Definition rot13Char (c : ascii) : ascii :=
  if Rot13.isLetter c
  then match Rot13.rotate (String c EmptyString) with
       | String d _ => d
       | EmptyString => c
       end
  else c.

(** every character of [s] satisfies [p] *)
Fixpoint allChars (p : ascii → bool) (s : string) : bool :=
  match s with
  | EmptyString => true
  | String c rest => p c && allChars p rest
  end.

(** every value of the object is a string *)
Definition allStrings (obj : gmap string Json) : Prop :=
  ∀ key value, obj !! key = Some value → ∃ s, value = JStr s.

(** the render calls form a chain from [input]: the first call is on
    [input], each further call is on what the call before it returned *)
Fixpoint chained (parseAndRender : string → XpmLiquidMap → Outcome string)
    (map : XpmLiquidMap) (input : string) (made : list string) : Prop :=
  match made with
  | [] => True
  | c :: rest =>
      c = input
      ∧ match rest with
        | [] => True
        | next :: _ =>
            parseAndRender c map = Returned next
            ∧ chained parseAndRender map next rest
        end
  end.

Module Cases.

(** a host whose runtime has no [os.version] *)
Definition oldNode : Host :=
  {| process_env := ∅;
     os_module := os_module Samples.linux;
     os_has_version := false;
     path_module := path_module Samples.linux;
     array_members := array_members Samples.linux;
     string_members := string_members Samples.linux |}.

(** [{xpack: {buildConfigurations: null}}] *)
Definition nullConfigurations : gmap string Json :=
  {[ "xpack" := JObj {[ "buildConfigurations" := JNull ]} ]}.

(** [{xpack: {buildConfigurations: {dev: null}}}] *)
Definition nullEntry : gmap string Json :=
  {[ "xpack" := JObj {[ "buildConfigurations" := JObj {[ "dev" := JNull ]} ]} ]}.

(** [{count: 3, lines: ["a", null, 7], nested: {x: ["y"]}}]: values outside
    the declared type *)
Definition untyped : gmap string Json :=
  {[ "count" := JNum "3";
     "lines" := JArr [JStr "a"; JNull; JNum "7"];
     "nested" := JObj {[ "x" := JArr [JStr "y"] ]} ]}.

(** [{xpack: {properties: {a: "1"},
              buildConfigurations: {dev: {target: "host"}}}}]: an entry
    without properties *)
Definition plainEntryXpack : gmap string Json :=
  {[ "properties" := JObj Samples.base;
     "buildConfigurations" := JObj {[ "dev" := JObj Samples.blankEntry ]} ]}.
Definition plainEntry : gmap string Json :=
  {[ "xpack" := JObj plainEntryXpack ]}.

(** [{"__proto__": "x", "a": "1"}], as [JSON.parse] makes it: [__proto__]
    is an own key of the object *)
Definition protoKey : gmap string Json :=
  {[ "__proto__" := JStr "x"; "a" := JStr "1" ]}.

(** [{xpack: {buildConfigurations: {}}}] *)
Definition emptyConfigurations : gmap string Json :=
  {[ "xpack" := JObj {[ "buildConfigurations" := JObj ∅ ]} ]}.

(** a render capability that leaves every string as it is: what the
    engine does with [1 {{ a }}] when the property [a] is [{{ a }}] *)
Definition stall : string → XpmLiquidMap → Outcome string :=
  fun current _ => Returned current.

(** a render capability that resolves [{{ a }}] to [{{ b }}] and [{{ b }}]
    to [x]: the property [a] is itself a template *)
Definition twoPass : string → XpmLiquidMap → Outcome string :=
  fun current _ =>
    if (current =? "{{ a }}")%string then Returned "{{ b }}"
    else if (current =? "{{ b }}")%string then Returned "x"
    else Returned current.

End Cases.

(** * Theorems *)

(** ** Sanitization *)

Section SanitizeFacts.

Variable inClass : ascii → bool.
Hypothesis dash_outside : inClass "-" = false.

Let firstPass := Regex.replaceFrom (Regex.negatedClassPlus inClass) "-".

Lemma firstPass_in_class c rest :
  inClass c = true →
  firstPass 0 (String c rest) = String c (firstPass 0 rest).
Proof.
  intros Hc. unfold firstPass. cbn [Regex.replaceFrom].
  unfold Regex.negatedClassPlus at 1. cbn [Regex.runLength]. now rewrite Hc.
Qed.

Lemma firstPass_outside c rest :
  inClass c = false →
  firstPass 0 (String c rest)
  = String "-" (firstPass (Regex.runLength inClass rest) rest).
Proof.
  intros Hc. unfold firstPass. cbn [Regex.replaceFrom].
  unfold Regex.negatedClassPlus at 1. cbn [Regex.runLength]. now rewrite Hc.
Qed.

(** The first pass leaves a sanitized string, from the start of a match as
    from inside one. *)
Lemma firstPass_tidy s :
  tidy inClass false (firstPass 0 s) = true
  ∧ tidy inClass true (firstPass (Regex.runLength inClass s) s) = true.
Proof.
  induction s as [|c rest [IH0 IHrun]]; [now split|].
  destruct (inClass c) eqn:Hc.
  - cbn [Regex.runLength]. rewrite Hc, firstPass_in_class by done.
    cbn [tidy]. now rewrite Hc.
  - cbn [Regex.runLength]. rewrite Hc, firstPass_outside by done. split.
    + cbn [tidy]. now rewrite dash_outside, IHrun.
    + exact IHrun.
Qed.

Lemma in_class_not_dash c : inClass c = true → (c =? "-")%char = false.
Proof.
  intros Hc. destruct (Ascii.eqb_spec c "-") as [->|]; [congruence|done].
Qed.

Lemma tidy_after_dash_head c rest :
  tidy inClass true (String c rest) = true → inClass c = true.
Proof.
  cbn [tidy]. destruct (inClass c); [done|].
  rewrite andb_false_r. discriminate.
Qed.

Lemma tidy_no_match_here s b :
  tidy inClass b s = true → String.prefix "--" s = false.
Proof.
  destruct s as [|c [|d rest]]; [done| |].
  - intros _. cbn [String.prefix]. by destruct (Ascii.ascii_dec "-" c).
  - cbn [tidy String.prefix]. intros Ht.
    destruct (Ascii.ascii_dec "-" c) as [<-|]; [|done].
    destruct (Ascii.ascii_dec "-" d) as [<-|]; [|done].
    rewrite dash_outside in Ht. cbn in Ht.
    by rewrite andb_false_r in Ht.
Qed.

(** On a sanitized string the second pass finds no [--]. *)
Lemma collapseDashes_tidy s b :
  tidy inClass b s = true → collapseDashes s = s.
Proof.
  unfold collapseDashes, Regex.replaceAll. revert b.
  induction s as [|c rest IH]; intros b Ht; [done|].
  cbn [Regex.replaceFrom].
  unfold Regex.literal. rewrite (tidy_no_match_here _ _ Ht).
  cbn [tidy] in Ht. f_equal. destruct (inClass c); [by eapply IH|].
  apply andb_prop in Ht as [_ Ht]. by eapply IH.
Qed.

(** On a sanitized string the first pass replaces each dash by itself. *)
Lemma firstPass_tidy_id s b :
  tidy inClass b s = true → firstPass 0 s = s.
Proof.
  revert b. induction s as [|c rest IH]; intros b Ht; [done|].
  cbn [tidy] in Ht. destruct (inClass c) eqn:Hc.
  - rewrite firstPass_in_class by done. f_equal. by eapply IH.
  - rewrite firstPass_outside by done.
    apply andb_prop in Ht as [Hd Ht]. apply andb_prop in Hd as [Hd _].
    apply Ascii.eqb_eq in Hd as ->. f_equal.
    destruct rest as [|d rest']; [done|].
    pose proof (tidy_after_dash_head _ _ Ht) as Hd.
    cbn [Regex.runLength]. rewrite Hd. by eapply IH.
Qed.

(** A sanitized string has no two dashes in a row. *)
Lemma tidy_no_double_dash s b :
  tidy inClass b s = true → Str.includes s "--" = false.
Proof.
  revert b. induction s as [|c rest IH]; intros b Ht; [done|].
  cbn [Str.includes]. rewrite (tidy_no_match_here _ _ Ht).
  cbn [tidy] in Ht. cbn [orb].
  destruct (inClass c); [by eapply IH|].
  apply andb_prop in Ht as [_ Ht]. by eapply IH.
Qed.

Lemma sanitize_tidy s :
  tidy inClass false
    (collapseDashes (Regex.replaceAll (Regex.negatedClassPlus inClass) "-" s))
  = true.
Proof.
  pose proof (firstPass_tidy s) as [Ht _].
  unfold Regex.replaceAll. fold firstPass.
  by rewrite (collapseDashes_tidy _ _ Ht).
Qed.

Lemma sanitize_of_tidy s b :
  tidy inClass b s = true →
  collapseDashes (Regex.replaceAll (Regex.negatedClassPlus inClass) "-" s) = s.
Proof.
  intros Ht. unfold Regex.replaceAll. fold firstPass.
  rewrite (firstPass_tidy_id _ _ Ht). by eapply collapseDashes_tidy.
Qed.

End SanitizeFacts.

Section RunFacts.

Variable inClass : ascii → bool.

(** Inside a match the scan passes over the rest of the run. *)
Lemma replaceFrom_skip_run m rep run rest k :
  Regex.replaceFrom m rep (String.length run + k) (run +:+ rest)
  = Regex.replaceFrom m rep k rest.
Proof.
  induction run as [|c run IH]; [|exact IH].
  cbn. destruct rest, k; reflexivity.
Qed.

Lemma runLength_app run rest :
  Regex.runLength inClass run = String.length run →
  Regex.runLength inClass (run +:+ rest)
  = String.length run + Regex.runLength inClass rest.
Proof.
  induction run as [|c run IH]; [done|].
  change (String c run +:+ rest) with (String c (run +:+ rest)).
  cbn [Regex.runLength String.length].
  destruct (inClass c); [done|].
  intros [= Hrun]. by rewrite IH.
Qed.

(** A run of characters outside the class, between two characters of the
    class, becomes one dash. *)
Lemma firstPass_one_run a b run :
  inClass a = true → inClass b = true →
  run ≠ "" → Regex.runLength inClass run = String.length run →
  Regex.replaceAll (Regex.negatedClassPlus inClass) "-"
    (String a (run +:+ String b ""))
  = String a (String "-" (String b "")).
Proof.
  intros Ha Hb Hne Hrun. unfold Regex.replaceAll.
  rewrite firstPass_in_class by done. f_equal.
  destruct run as [|c run]; [done|].
  cbn in Hrun. destruct (inClass c) eqn:Hc; [done|].
  injection Hrun as Hrun.
  change (String c run +:+ String b "") with (String c (run +:+ String b "")).
  rewrite firstPass_outside by done. f_equal.
  rewrite runLength_app by done. rewrite replaceFrom_skip_run.
  cbn [Regex.runLength]. rewrite Hb.
  by rewrite firstPass_in_class.
Qed.

End RunFacts.

Lemma posix_dash_outside : posixClass "-" = false.
Proof. reflexivity. Qed.

Lemma win32_dash_outside : win32Class "-" = false.
Proof. reflexivity. Qed.

Lemma filterPosixPath_tidy s : tidy posixClass false (filterPosixPath s) = true.
Proof. apply sanitize_tidy, posix_dash_outside. Qed.

Lemma filterWin32Path_tidy s : tidy win32Class false (filterWin32Path s) = true.
Proof. apply sanitize_tidy, win32_dash_outside. Qed.

(** [filterPath] is one of the two other filters, by the platform. *)
Lemma filterPath_cases host s :
  filterPath host s
  = if (platform (os_module host) =? "win32")%string
    then filterWin32Path s else filterPosixPath s.
Proof. unfold filterPath. by destruct (_ =? _)%string. Qed.

Lemma no_double_dash host s :
  Str.includes (filterPath host s) "--" = false
  ∧ Str.includes (filterPosixPath s) "--" = false
  ∧ Str.includes (filterWin32Path s) "--" = false.
Proof.
  assert (Str.includes (filterPosixPath s) "--" = false) as Hp
    by (eapply tidy_no_double_dash;
        [apply posix_dash_outside | apply filterPosixPath_tidy]).
  assert (Str.includes (filterWin32Path s) "--" = false) as Hw
    by (eapply tidy_no_double_dash;
        [apply win32_dash_outside | apply filterWin32Path_tidy]).
  rewrite filterPath_cases. by destruct (_ =? _)%string.
Qed.

(** C1, as the code has it: the slash is in the class that [filterPosixPath]
    keeps, so ["a///b"] comes back unchanged; [filterWin32Path], whose class
    has no slash, turns it into ["a-b"]; and [filterPosixPath] turns any
    run of characters outside its class, between ["a"] and ["b"], into one
    dash. *)
Theorem filterPosixPath_keeps_slashes :
  filterPosixPath "a///b" = "a///b"
  ∧ filterWin32Path "a///b" = "a-b"
  ∧ ∀ run, run ≠ "" →
      Regex.runLength posixClass run = String.length run →
      filterPosixPath ("a" +:+ run +:+ "b") = "a-b".
Proof.
  split; [reflexivity|]. split; [reflexivity|].
  intros run Hne Hrun. unfold filterPosixPath.
  change ("a" +:+ run +:+ "b") with (String "a" (run +:+ String "b" "")).
  by rewrite firstPass_one_run.
Qed.

Lemma filterPosixPath_keeps_slashes_witness :
  filterPosixPath "a\\\b" = "a-b" ∧ filterPosixPath "a - b" = "a-b".
Proof.
  destruct filterPosixPath_keeps_slashes as (_ & _ & H).
  split.
  - apply (H "\\\"); [discriminate | reflexivity].
  - apply (H " - "); [discriminate | reflexivity].
Defined.

(** C1, as stated, fails: [filterPosixPath "a///b"] is not ["a-b"]. *)
Lemma filterPosixPath_slashes_counterexample :
  filterPosixPath "a///b" ≠ "a-b".
Proof. vm_compute. discriminate. Qed.

(** C6, as the code has it: the output of each of the three filters never
    contains ["--"], whatever the input; a dash is outside both classes, so
    the first pass already turns a run of dashes into one dash, as in
    ["a---b"], and the second pass finds nothing to replace. *)
Theorem filters_leave_no_double_dash :
  ∀ host s,
    Str.includes (filterPath host s) "--" = false
    ∧ Str.includes (filterPosixPath s) "--" = false
    ∧ Str.includes (filterWin32Path s) "--" = false
    ∧ filterPosixPath "a---b" = "a-b"
    ∧ filterWin32Path "a-----b" = "a-b".
Proof.
  intros host s. pose proof (no_double_dash host s) as (? & ? & ?).
  repeat split; done.
Qed.

(** C6, as stated, fails: no input with three dashes in a row, on any host,
    leaves a double dash in the output of any of the three filters. *)
Lemma double_dash_counterexample :
  ¬ ∃ host s,
      Str.includes s "---" = true
      ∧ (Str.includes (filterPath host s) "--" = true
         ∨ Str.includes (filterPosixPath s) "--" = true
         ∨ Str.includes (filterWin32Path s) "--" = true).
Proof.
  intros (host & s & _ & H).
  pose proof (no_double_dash host s) as (H1 & H2 & H3).
  destruct H as [H|[H|H]]; congruence.
Qed.

(** C10: [filterPosixPath] and [filterWin32Path] are idempotent. *)
Theorem filters_idempotent :
  ∀ s,
    filterPosixPath (filterPosixPath s) = filterPosixPath s
    ∧ filterWin32Path (filterWin32Path s) = filterWin32Path s.
Proof.
  intros s. split.
  - apply (sanitize_of_tidy posixClass posix_dash_outside _ false),
      filterPosixPath_tidy.
  - apply (sanitize_of_tidy win32Class win32_dash_outside _ false),
      filterWin32Path_tidy.
Qed.

(** ** Flattening of multi-line properties *)

#[local] Instance JStr_inj : Inj (=) (=) JStr.
Proof. by intros ?? [=]. Qed.

Lemma mapM_strings lines :
  Js.mapM (fun x => match x with
                    | JNull => Returned ""
                    | _ => Js.ToString x
                    end) (JStr <$> lines)
  = Returned lines.
Proof.
  induction lines as [|l lines IH]; [done|].
  cbn [fmap list_fmap Js.mapM Js.ToString].
  cbn [fmap list_fmap Js.mapM] in IH. by rewrite IH.
Qed.

Lemma join_strings lines separator :
  Js.join (JStr <$> lines) separator = Returned (Str.join separator lines).
Proof. unfold Js.join. by rewrite mapM_strings. Qed.

Lemma isProperties_insert key value obj :
  obj !! key = None →
  isProperties (<[key := value]> obj) →
  isProperties obj
  ∧ ((∃ s, value = JStr s) ∨ (∃ lines, value = JArr (JStr <$> lines))).
Proof.
  intros Hfresh Hp. split.
  - intros k v Hk. apply (Hp k). rewrite lookup_insert_ne; [done|].
    intros ->. congruence.
  - apply (Hp key). by rewrite lookup_insert_eq.
Qed.

Lemma lookup_assign result key value k :
  Js.assign result key value !! k
  = if decide (key = k ∧ key ≠ "__proto__") then Some value else result !! k.
Proof.
  unfold Js.assign. destruct (String.eqb_spec key "__proto__") as [->|Hne].
  - rewrite decide_False; [done|]. by intros [_ H].
  - destruct (decide (key = k)) as [->|Hk].
    + rewrite lookup_insert_eq. by rewrite decide_True.
    + rewrite lookup_insert_ne by done.
      rewrite decide_False; [done|]. by intros [? _].
Qed.

(** Flattening an object of the declared type raises nothing; the result
    has the keys of the object but [__proto__]; under any other key a
    string is kept and an array of lines is joined with the end-of-line
    marker of the host. *)
Lemma joinMultiLineProperties_typed host obj :
  isProperties obj →
  ∃ result,
    _joinMultiLineProperties host (Some (JObj obj)) = Returned result
    ∧ (∀ key, result !! key = None ↔ obj !! key = None ∨ key = "__proto__")
    ∧ (∀ key s, key ≠ "__proto__" → obj !! key = Some (JStr s) →
         result !! key = Some (JStr s))
    ∧ (∀ key lines, key ≠ "__proto__" →
         obj !! key = Some (JArr (JStr <$> lines)) →
         result !! key
         = Some (JStr (Str.join (EOL (os_module host)) lines))).
Proof.
  unfold _joinMultiLineProperties.
  cbn [Js.entries Js.ownEnumerable mbind Outcome_bind].
  apply (map_fold_weak_ind (fun done m =>
    isProperties m →
    ∃ result, done = Returned result
      ∧ (∀ key, result !! key = None ↔ m !! key = None ∨ key = "__proto__")
      ∧ (∀ key s, key ≠ "__proto__" → m !! key = Some (JStr s) →
           result !! key = Some (JStr s))
      ∧ (∀ key lines, key ≠ "__proto__" →
           m !! key = Some (JArr (JStr <$> lines)) →
           result !! key
           = Some (JStr (Str.join (EOL (os_module host)) lines))))).
  - intros _. exists ∅. split; [done|]. split; [|split].
    + intros key. rewrite !lookup_empty. tauto.
    + intros key s _. by rewrite lookup_empty.
    + intros key lines _. by rewrite lookup_empty.
  - intros key value m done Hfresh IH Hp.
    apply isProperties_insert in Hp as [Hm Hvalue]; [|done].
    destruct (IH Hm) as (result & -> & Hdom & Hstr & Hlines).
    cbn [mbind Outcome_bind].
    assert (∃ flat,
      match value with
      | JArr lines => JStr <$> Js.join lines (EOL (os_module host))
      | _ => Returned value
      end = Returned flat
      ∧ (∀ s, value = JStr s → flat = JStr s)
      ∧ (∀ lines, value = JArr (JStr <$> lines) →
           flat = JStr (Str.join (EOL (os_module host)) lines)))
      as (flat & -> & Hs & Hl).
    { destruct Hvalue as [[s ->]|[lines ->]].
      - exists (JStr s). repeat split; [congruence|]. intros [|??]; discriminate.
      - rewrite join_strings. eexists. split; [done|]. split; [discriminate|].
        intros lines' [= Heq]. apply (inj (fmap JStr)) in Heq. by subst. }
    cbn [mbind Outcome_bind mret Outcome_ret].
    exists (Js.assign result key flat). split; [done|]. split; [|split].
    + intros k. rewrite lookup_assign. case_decide as Hk.
      * destruct Hk as [-> Hne]. rewrite lookup_insert_eq.
        split; [discriminate|]. by intros [|].
      * rewrite Hdom. destruct (decide (key = k)) as [->|Hne].
        -- destruct (decide (k = "__proto__")) as [->|Hp]; [tauto|].
           by destruct Hk.
        -- by rewrite lookup_insert_ne.
    + intros k s Hk. rewrite lookup_assign.
      destruct (decide (key = k)) as [->|Hne].
      * rewrite decide_True by done. rewrite lookup_insert_eq.
        intros [= ->]. by rewrite (Hs s).
      * rewrite decide_False by (by intros [? _]).
        rewrite lookup_insert_ne by done. by apply Hstr.
    + intros k lines Hk. rewrite lookup_assign.
      destruct (decide (key = k)) as [->|Hne].
      * rewrite decide_True by done. rewrite lookup_insert_eq.
        intros [= ->]. by rewrite (Hl lines).
      * rewrite decide_False by (by intros [? _]).
        rewrite lookup_insert_ne by done. by apply Hlines.
Qed.

(** C8, as the code has it, with the key that it loses.  Flattening a
    Properties mapping joins the lines of each array value with the
    end-of-line marker of the host and leaves each string value unchanged,
    under every key but [__proto__]; every value of the result is a single
    string.  The key [__proto__] itself is never in the result: the
    assignment to it reaches the inherited setter and stores nothing. *)
Theorem joinMultiLineProperties_flattens :
  ∀ host obj,
    isProperties obj →
    ∃ result,
      _joinMultiLineProperties host (Some (JObj obj)) = Returned result
      ∧ (∀ key lines, key ≠ "__proto__" →
           obj !! key = Some (JArr (JStr <$> lines)) →
           result !! key
           = Some (JStr (Str.join (EOL (os_module host)) lines)))
      ∧ (∀ key s, key ≠ "__proto__" → obj !! key = Some (JStr s) →
           result !! key = Some (JStr s))
      ∧ (∀ key value, result !! key = Some value → ∃ s, value = JStr s)
      ∧ (∀ key, is_Some (result !! key)
                ↔ is_Some (obj !! key) ∧ key ≠ "__proto__")
      ∧ result !! "__proto__" = None.
Proof.
  intros host obj Hp.
  destruct (joinMultiLineProperties_typed host obj Hp)
    as (result & Hrun & Hdom & Hstr & Hlines).
  exists result. split; [done|]. split; [done|]. split; [done|].
  split; [|split].
  - intros key value Hkey.
    assert (key ≠ "__proto__") as Hne.
    { intros ->. destruct (Hdom "__proto__") as [_ Hd].
      rewrite Hd in Hkey by (by right). discriminate. }
    destruct (obj !! key) as [v|] eqn:Hv.
    + destruct (Hp key v Hv) as [[s ->]|[lines ->]].
      * rewrite (Hstr _ _ Hne Hv) in Hkey. injection Hkey as <-. eauto.
      * rewrite (Hlines _ _ Hne Hv) in Hkey. injection Hkey as <-. eauto.
    + destruct (Hdom key) as [_ Hd]. rewrite Hd in Hkey by (by left).
      discriminate.
  - intros key. rewrite <- !not_eq_None_Some, Hdom. tauto.
  - apply Hdom. by right.
Qed.

Lemma multiLine_isProperties : isProperties Samples.multiLine.
Proof.
  intros key value. unfold Samples.multiLine.
  rewrite lookup_insert_Some, lookup_singleton_Some.
  intros [[_ <-]|[_ [_ <-]]].
  - right. by exists ["line1"; "line2"].
  - left. by exists "x".
Qed.

Lemma protoKey_isProperties : isProperties Cases.protoKey.
Proof.
  intros key value. unfold Cases.protoKey.
  rewrite lookup_insert_Some, lookup_singleton_Some.
  intros [[_ <-]|[_ [_ <-]]]; left; eauto.
Qed.

Lemma joinMultiLineProperties_flattens_witness :
  Cases.protoKey !! "__proto__" = Some (JStr "x")
  ∧ ∃ result,
      _joinMultiLineProperties Samples.linux (Some (JObj Cases.protoKey))
      = Returned result
      ∧ result !! "a" = Some (JStr "1")
      ∧ result !! "__proto__" = None.
Proof.
  split; [reflexivity|].
  destruct (joinMultiLineProperties_flattens Samples.linux Cases.protoKey
              protoKey_isProperties)
    as (result & Hrun & _ & Hstr & _ & _ & Hproto).
  exists result. split; [exact Hrun|]. split; [|exact Hproto].
  apply Hstr; [discriminate|reflexivity].
Defined.

(** ** The substitution map *)

(** The base properties: flattening raises nothing where the [properties]
    member has the declared type. *)
Lemma base_properties_typed host (value : Value) (liquidMap : XpmLiquidMap) :
  typedProperties value →
  ∃ base,
    (if _isJsonObject value
     then flat ← _joinMultiLineProperties host value;
          Returned (set_properties (set_properties liquidMap ∅) flat)
     else Returned (set_properties liquidMap ∅))
    = Returned (set_properties liquidMap base)
    ∧ (∀ obj, value = Some (JObj obj) →
         _joinMultiLineProperties host value = Returned base)
    ∧ (_isJsonObject value = false → base = ∅).
Proof.
  intros Ht.
  destruct value as [[| | | | |obj]|];
    try (exists ∅; split; [reflexivity|]; split; [discriminate|done]).
  destruct (joinMultiLineProperties_typed host obj (Ht obj eq_refl))
    as (flat & Hrun & _).
  exists flat. cbn [_isJsonObject isDefined _isPrimitive isArray negb andb].
  rewrite Hrun. split; [reflexivity|]. split; [|discriminate].
  by intros ? [= <-].
Qed.

(** The properties of the configuration, laid over the base ones. *)
Lemma overlay_properties_typed host (value : Value) (liquidMap : XpmLiquidMap)
    base c :
  typedProperties value →
  ∃ overlay,
    (if _isJsonObject value
     then flat ← _joinMultiLineProperties host value;
          Returned
            (set_properties
               (set_configuration (set_properties liquidMap base) c)
               (flat ∪ get_properties
                         (set_configuration (set_properties liquidMap base) c)))
     else Returned (set_configuration (set_properties liquidMap base) c))
    = Returned
        (set_properties (set_configuration liquidMap c) (overlay ∪ base))
    ∧ (∀ obj, value = Some (JObj obj) →
         _joinMultiLineProperties host value = Returned overlay)
    ∧ (_isJsonObject value = false → overlay = ∅).
Proof.
  intros Ht.
  destruct value as [[| | | | |obj]|];
    try (exists ∅; rewrite (left_id_L ∅ (∪));
         split; [reflexivity|]; split; [discriminate|done]).
  destruct (joinMultiLineProperties_typed host obj (Ht obj eq_refl))
    as (flat & Hrun & _).
  exists flat. cbn [_isJsonObject isDefined _isPrimitive isArray negb andb].
  rewrite Hrun. split; [reflexivity|]. split; [|discriminate].
  by intros ? [= <-].
Qed.

(** The first steps of [prepareMap] on a descriptor with an [xpack]
    object. *)
Ltac prepareMap_enter Hhost Hxpack :=
  unfold prepareMap; cbn [Js.truthy negb]; rewrite Hhost; cbn [negb];
  cbn [Js.get mbind Outcome_bind]; rewrite Hxpack;
  cbn [_isJsonObject isDefined _isPrimitive isArray negb andb];
  cbn [Js.get mbind Outcome_bind].

Local Abbreviation hostFacts host packageJson :=
  {| env := process_env host; os := os_module host;
     path := path_module host; package := packageJson;
     configuration := None; properties := None |}.

Lemma non_blank name :
  Str.trim name ≠ "" → (Str.trim name =? "")%string = false.
Proof. intros H. by apply String.eqb_neq. Qed.

Lemma isProperties_singleton key s : isProperties {[ key := JStr s ]}.
Proof.
  intros k v [_ <-]%lookup_singleton_Some. left. by exists s.
Qed.

(** Without a [buildConfigurations] member in the [xpack] object, a
    non-blank name raises the error. *)
Lemma prepareMap_raises host pkg xpack name :
  os_has_version host = true →
  Str.trim name ≠ "" →
  pkg !! "xpack" = Some (JObj xpack) →
  typedProperties (xpack !! "properties") →
  xpack !! "buildConfigurations" = None →
  prepareMap host (Some (JObj pkg)) (Some name)
  = Thrown (Error "package.json has no buildConfigurations").
Proof.
  intros Hhost Hname%non_blank Hx Ht Hb.
  prepareMap_enter Hhost Hx.
  destruct (base_properties_typed host _ (hostFacts host (Some (JObj pkg))) Ht)
    as (base & -> & _).
  cbn [mbind Outcome_bind]. by rewrite Hname, Hb.
Qed.

(** Without an [xpack] object nothing is looked up and nothing is
    raised. *)
Lemma prepareMap_without_xpack host pkg name :
  os_has_version host = true →
  _isJsonObject (pkg !! "xpack") = false →
  prepareMap host (Some (JObj pkg)) name
  = Returned (set_properties (hostFacts host (Some (JObj pkg))) ∅).
Proof.
  intros Hhost Hx. unfold prepareMap. cbn [Js.truthy negb].
  rewrite Hhost. cbn [negb Js.get mbind Outcome_bind]. by rewrite Hx.
Qed.

(** With a non-blank name that is a key of [buildConfigurations], bound to
    an object. *)
Lemma prepareMap_selected host pkg xpack cfgs entry name :
  os_has_version host = true →
  Str.trim name ≠ "" →
  pkg !! "xpack" = Some (JObj xpack) →
  typedProperties (xpack !! "properties") →
  xpack !! "buildConfigurations" = Some (JObj cfgs) →
  cfgs !! name = Some (JObj entry) →
  typedProperties (entry !! "properties") →
  ∃ base overlay,
    prepareMap host (Some (JObj pkg)) (Some name)
    = Returned
        {| env := process_env host; os := os_module host;
           path := path_module host; package := Some (JObj pkg);
           configuration := Some (<["name" := JStr name]> entry);
           properties := Some (overlay ∪ base) |}
    ∧ (∀ obj, xpack !! "properties" = Some (JObj obj) →
         _joinMultiLineProperties host (Some (JObj obj)) = Returned base)
    ∧ (∀ obj, entry !! "properties" = Some (JObj obj) →
         _joinMultiLineProperties host (Some (JObj obj)) = Returned overlay)
    ∧ (_isJsonObject (xpack !! "properties") = false → base = ∅)
    ∧ (_isJsonObject (entry !! "properties") = false → overlay = ∅).
Proof.
  intros Hhost Hname%non_blank Hx Ht Hb Hc Hte.
  prepareMap_enter Hhost Hx.
  destruct (base_properties_typed host _ (hostFacts host (Some (JObj pkg))) Ht)
    as (base & -> & Hbase & Hbase0).
  cbn [mbind Outcome_bind]. rewrite Hname, Hb.
  cbn [negb isDefined Js.index Js.get mbind Outcome_bind]. rewrite Hc.
  cbn [Js.isAbsent Js.getProperties Js.get Js.spread Js.ownEnumerable
       mbind Outcome_bind].
  destruct (overlay_properties_typed host _ (hostFacts host (Some (JObj pkg)))
              base (<["name" := JStr name]> entry) Hte)
    as (overlay & -> & Hoverlay & Hoverlay0).
  exists base, overlay. split; [reflexivity|].
  split; [|split; [|done]].
  - intros obj Ho. rewrite <- Ho. by apply (Hbase obj).
  - intros obj Ho. rewrite <- Ho. by apply (Hoverlay obj).
Qed.

Lemma typedProperties_object obj :
  isProperties obj → typedProperties (Some (JObj obj)).
Proof. by intros Hp ? [= <-]. Qed.

Lemma typedProperties_undefined : typedProperties undefined.
Proof. intros ? [=]. Qed.

(** C2, as the code has it: the [buildConfigurations] member is looked for
    inside the [xpack] object only.  On a host with [os.version], for a
    configuration name that is not blank after trimming: if the [xpack]
    member of the descriptor is an object (with properties of the declared
    type) that has no [buildConfigurations] member, [prepareMap] raises
    [Error("package.json has no buildConfigurations")]; if the [xpack]
    member is not an object, [prepareMap] raises nothing and returns the
    map with empty properties and no configuration. *)
Theorem prepareMap_no_buildConfigurations :
  ∀ host pkg name,
    os_has_version host = true →
    Str.trim name ≠ "" →
    (∀ xpack,
       pkg !! "xpack" = Some (JObj xpack) →
       typedProperties (xpack !! "properties") →
       xpack !! "buildConfigurations" = None →
       prepareMap host (Some (JObj pkg)) (Some name)
       = Thrown (Error "package.json has no buildConfigurations"))
    ∧ (_isJsonObject (pkg !! "xpack") = false →
       prepareMap host (Some (JObj pkg)) (Some name)
       = Returned
           {| env := process_env host; os := os_module host;
              path := path_module host; package := Some (JObj pkg);
              configuration := None; properties := Some ∅ |}).
Proof.
  intros host pkg name Hhost Hname. split.
  - intros xpack. by apply prepareMap_raises.
  - intros Hx. by rewrite prepareMap_without_xpack.
Qed.

Lemma prepareMap_no_buildConfigurations_witness :
  prepareMap Samples.linux (Some (JObj Samples.noConfigurations))
    (Some "missing")
  = Thrown (Error "package.json has no buildConfigurations").
Proof.
  destruct (prepareMap_no_buildConfigurations Samples.linux
              Samples.noConfigurations "missing") as [Hraise _].
  - reflexivity.
  - vm_compute. discriminate.
  - apply (Hraise Samples.xpackOnlyProperties).
    + reflexivity.
    + apply typedProperties_object, isProperties_singleton.
    + reflexivity.
Defined.

(** C2, as stated, fails: the descriptor [{name: "demo"}] provides no
    [buildConfigurations] and the name ["dev"] is not blank, yet
    [prepareMap] returns a map. *)
Lemma prepareMap_without_xpack_counterexample :
  Str.trim "dev" ≠ ""
  ∧ Js.get (Some (JObj Samples.plain)) "xpack" = Returned undefined
  ∧ prepareMap Samples.linux (Some (JObj Samples.plain)) (Some "dev")
    = Returned
        {| env := process_env Samples.linux; os := os_module Samples.linux;
           path := path_module Samples.linux;
           package := Some (JObj Samples.plain);
           configuration := None; properties := Some ∅ |}.
Proof.
  split; [vm_compute; discriminate|]. split; reflexivity.
Qed.



(** C9, as the code has it: when [prepareMap] is called, on a host with
    [os.version], with a configuration name that is not blank after
    trimming and is a key of [buildConfigurations] bound to an object (the
    properties of the descriptor and of the entry having the declared
    type), the [configuration] of the returned map is a copy of the fields
    of the entry with [name] set to the requested name: [name] is the
    requested name even when the entry has a [name] field of its own, and
    every other field is the field of the entry. *)
Theorem prepareMap_configuration :
  ∀ host pkg xpack cfgs entry name,
    os_has_version host = true →
    Str.trim name ≠ "" →
    pkg !! "xpack" = Some (JObj xpack) →
    typedProperties (xpack !! "properties") →
    xpack !! "buildConfigurations" = Some (JObj cfgs) →
    cfgs !! name = Some (JObj entry) →
    typedProperties (entry !! "properties") →
    ∃ m c,
      prepareMap host (Some (JObj pkg)) (Some name) = Returned m
      ∧ configuration m = Some c
      ∧ c = <["name" := JStr name]> entry
      ∧ c !! "name" = Some (JStr name)
      ∧ ∀ key, key ≠ "name" → c !! key = entry !! key.
Proof.
  intros host pkg xpack cfgs entry name Hhost Hname Hx Ht Hb Hc Hte.
  destruct (prepareMap_selected host pkg xpack cfgs entry name)
    as (fb & fo & Hrun & _); try done.
  eexists _, _. split; [exact Hrun|]. split; [reflexivity|].
  split; [reflexivity|]. split.
  - apply lookup_insert_eq.
  - intros key Hkey. by rewrite lookup_insert_ne.
Qed.

Lemma prepareMap_configuration_witness :
  ∃ m c,
    prepareMap Samples.linux (Some (JObj Samples.named)) (Some "dev")
    = Returned m
    ∧ configuration m = Some c
    ∧ c !! "name" = Some (JStr "dev")
    ∧ c !! "target" = Some (JStr "host").
Proof.
  destruct (prepareMap_configuration Samples.linux Samples.named
              Samples.namedXpack {[ "dev" := JObj Samples.namedEntry ]}
              Samples.namedEntry "dev")
    as (m & c & Hrun & Hc & _ & Hname & Hother).
  - reflexivity.
  - vm_compute. discriminate.
  - reflexivity.
  - apply typedProperties_undefined.
  - reflexivity.
  - reflexivity.
  - apply typedProperties_undefined.
  - exists m, c. split; [exact Hrun|]. split; [exact Hc|].
    split; [exact Hname|]. rewrite Hother; [reflexivity|discriminate].
Defined.

(** C9, as stated, fails: the name [" "] is a key of [buildConfigurations],
    yet the returned map has no [configuration], since a name that is blank
    after trimming selects nothing. *)
Lemma blank_name_counterexample :
  Samples.blankConfigurations !! " " = Some (JObj Samples.blankEntry)
  ∧ prepareMap Samples.linux (Some (JObj Samples.blankKey)) (Some " ")
    = Returned
        {| env := process_env Samples.linux; os := os_module Samples.linux;
           path := path_module Samples.linux;
           package := Some (JObj Samples.blankKey);
           configuration := None; properties := Some ∅ |}.
Proof. split; reflexivity. Qed.

(** ** The expansion loop *)

Local Open Scope list_scope.

Lemma hasMarkers_empty : hasMarkers "" = false.
Proof. reflexivity. Qed.

Lemma hasMarkers_cons c s : hasMarkers s = true → hasMarkers (String c s) = true.
Proof.
  unfold hasMarkers. cbn [Str.includes].
  intros [-> | ->]%orb_prop; rewrite ?orb_true_r; done.
Qed.

Lemma cons_neq c s : (String c s =? s)%string = false.
Proof.
  apply String.eqb_neq. intros H.
  apply (f_equal String.length) in H. cbn in H. lia.
Qed.

Section DriverFacts.

Variable parseAndRender : string → XpmLiquidMap → Outcome string.
Variable map : XpmLiquidMap.

Let loop := renderLoop parseAndRender.

Let advancing := advancing parseAndRender map.

Lemma advancing_snoc made c out :
  advancing made → hasMarkers c = true →
  parseAndRender c map = Returned out → out ≠ c →
  advancing (made ++ [c]).
Proof.
  intros Hmade Hc Hout Hne c' [Hin|Hin%list_elem_of_singleton]%elem_of_app.
  - by apply Hmade.
  - subst c'. eauto.
Qed.

Lemma renderLoop_unfold fuel s made :
  loop fuel map s s made
  = if hasMarkers s then
      match fuel with
      | 0 => {| ended := None; calls := made |}
      | S fuel' =>
          match parseAndRender s map with
          | Thrown e => {| ended := Some (Thrown e); calls := made ++ [s] |}
          | Returned out =>
              if (out =? s)%string
              then {| ended := Some (Returned out); calls := made ++ [s] |}
              else loop fuel' map out out (made ++ [s])
          end
      end
    else {| ended := Some (Returned s); calls := made |}.
Proof. by destruct fuel. Qed.

(** How a run of the loop can look.  Every call but the last one returned
    a changed string; the run has not ended after [fuel] such calls, or it
    ended at the loop test on a string without markers, or the last call
    returned its input, or the last call raised. *)
Lemma renderLoop_shape fuel s made :
  advancing made →
  match ended (loop fuel map s s made) with
  | None =>
      advancing (calls (loop fuel map s s made))
      ∧ length (calls (loop fuel map s s made)) = length made + fuel
  | Some (Returned r) =>
      (advancing (calls (loop fuel map s s made)) ∧ hasMarkers r = false)
      ∨ (∃ front, calls (loop fuel map s s made) = front ++ [r]
           ∧ advancing front ∧ hasMarkers r = true
           ∧ parseAndRender r map = Returned r)
  | Some (Thrown e) =>
      ∃ front c, calls (loop fuel map s s made) = front ++ [c]
        ∧ advancing front ∧ hasMarkers c = true
        ∧ parseAndRender c map = Thrown e
  end.
Proof.
  revert s made. induction fuel as [|fuel IH]; intros s made Hmade;
    rewrite renderLoop_unfold; destruct (hasMarkers s) eqn:Hs; cbn [ended calls].
  - split; [done|lia].
  - left. by split.
  - destruct (parseAndRender s map) as [out|e] eqn:Hrender; cbn [ended calls].
    + destruct (String.eqb_spec out s) as [->|Hne]; cbn [ended calls].
      * right. by exists made.
      * specialize (IH out (made ++ [s])
                      (advancing_snoc _ _ _ Hmade Hs Hrender Hne)).
        destruct (ended (loop fuel map out out (made ++ [s]))) as [[r|e]|];
          [done|done|].
        destruct IH as [Hadv Hlen]. split; [done|].
        rewrite Hlen, length_app. cbn. lia.
    + by exists made, s.
  - left. by split.
Qed.

(** A loop whose render calls all shorten a measure ends within as many
    iterations as the measure of its input, plus one. *)
Lemma renderLoop_ends (measure : string → nat) fuel s made :
  (∀ c out, hasMarkers c = true → parseAndRender c map = Returned out →
            out ≠ c → measure out < measure c) →
  measure s < fuel →
  ended (loop fuel map s s made) ≠ None
  ∧ (length (calls (loop fuel map s s made)) ≤ length made + fuel)%nat.
Proof.
  intros Hdecr. revert s made.
  induction fuel as [|fuel IH]; intros s made Hlt; [lia|].
  rewrite renderLoop_unfold. destruct (hasMarkers s) eqn:Hs; cbn [ended calls];
    [|split; [done|lia]].
  destruct (parseAndRender s map) as [out|e] eqn:Hrender; cbn [ended calls];
    [|split; [done|rewrite length_app; cbn; lia]].
  destruct (String.eqb_spec out s) as [->|Hne]; cbn [ended calls];
    [split; [done|rewrite length_app; cbn; lia]|].
  pose proof (Hdecr s out Hs Hrender Hne) as Hout.
  destruct (IH out (made ++ [s])) as [Hend Hlen]; [lia|].
  split; [done|]. rewrite length_app in Hlen. cbn in Hlen. lia.
Qed.

Lemma performSubstitutions_loop fuel input :
  performSubstitutions parseAndRender fuel input map
  = loop fuel map input input [].
Proof.
  unfold performSubstitutions. destruct (String.eqb_spec input "") as [->|].
  - by destruct fuel.
  - done.
Qed.

Lemma advancing_nil : advancing [].
Proof. intros c Hc. by apply elem_of_nil in Hc. Qed.

End DriverFacts.

(** An advancing call neither returned its input nor raised. *)
Lemma advancing_call parseAndRender map made c :
  advancing parseAndRender map made → c ∈ made →
  parseAndRender c map ≠ Returned c
  ∧ ∀ e, parseAndRender c map ≠ Thrown e.
Proof.
  intros Hmade Hc. destruct (Hmade c Hc) as (_ & out & Hout & Hne).
  rewrite Hout. split; [intros [= ->]; done|discriminate].
Qed.

Lemma performSubstitutions_shape parseAndRender map fuel input :
  match ended (performSubstitutions parseAndRender fuel input map) with
  | None =>
      advancing parseAndRender map
        (calls (performSubstitutions parseAndRender fuel input map))
      ∧ length (calls (performSubstitutions parseAndRender fuel input map))
        = fuel
  | Some (Returned r) =>
      (advancing parseAndRender map
         (calls (performSubstitutions parseAndRender fuel input map))
       ∧ hasMarkers r = false)
      ∨ (∃ front,
           calls (performSubstitutions parseAndRender fuel input map)
           = front ++ [r]
           ∧ advancing parseAndRender map front ∧ hasMarkers r = true
           ∧ parseAndRender r map = Returned r)
  | Some (Thrown e) =>
      ∃ front c,
        calls (performSubstitutions parseAndRender fuel input map)
        = front ++ [c]
        ∧ advancing parseAndRender map front ∧ hasMarkers c = true
        ∧ parseAndRender c map = Thrown e
  end.
Proof.
  rewrite performSubstitutions_loop.
  apply (renderLoop_shape parseAndRender map fuel input []), advancing_nil.
Qed.

(** A call that did not advance is the last one. *)
Lemma last_call parseAndRender map fuel input c :
  c ∈ calls (performSubstitutions parseAndRender fuel input map) →
  (parseAndRender c map = Returned c ∨ ∃ e, parseAndRender c map = Thrown e) →
  last (calls (performSubstitutions parseAndRender fuel input map)) = Some c
  ∧ ended (performSubstitutions parseAndRender fuel input map)
    = Some (parseAndRender c map).
Proof.
  intros Hc Hstuck.
  assert (∀ made, advancing parseAndRender map made → c ∈ made → False)
    as Hnot.
  { intros made Hmade Hin.
    destruct (advancing_call _ _ _ _ Hmade Hin) as [Hne Hthrown].
    destruct Hstuck as [?|[e ?]]; [done|by eapply Hthrown]. }
  pose proof (performSubstitutions_shape parseAndRender map fuel input) as Hshape.
  destruct (ended _) as [[r|e]|].
  - destruct Hshape as [[Hadv _]|(front & Hcalls & Hadv & _ & Hr)];
      [by destruct (Hnot _ Hadv Hc)|].
    rewrite Hcalls in Hc |- *.
    apply elem_of_app in Hc as [Hc|Hc%list_elem_of_singleton];
      [by destruct (Hnot _ Hadv Hc)|subst c].
    by rewrite last_snoc, Hr.
  - destruct Hshape as (front & c' & Hcalls & Hadv & _ & Hr).
    rewrite Hcalls in Hc |- *.
    apply elem_of_app in Hc as [Hc|Hc%list_elem_of_singleton];
      [by destruct (Hnot _ Hadv Hc)|subst c].
    by rewrite last_snoc, Hr.
  - destruct Hshape as [Hadv _]. by destruct (Hnot _ Hadv Hc).
Qed.

(** C4: on an input without [{{] and without [{%], the empty string
    included, [performSubstitutions] returns the input unchanged and makes
    no render call, whatever the fuel. *)
Theorem performSubstitutions_without_markers :
  ∀ parseAndRender map fuel,
    (∀ input,
       Str.includes input "{{" = false → Str.includes input "{%" = false →
       performSubstitutions parseAndRender fuel input map
       = {| ended := Some (Returned input); calls := [] |})
    ∧ performSubstitutions parseAndRender fuel "" map
      = {| ended := Some (Returned ""); calls := [] |}.
Proof.
  intros parseAndRender map fuel. split; [|reflexivity].
  intros input H1 H2. rewrite performSubstitutions_loop, renderLoop_unfold.
  unfold hasMarkers. by rewrite H1, H2.
Qed.

Lemma performSubstitutions_without_markers_witness :
  performSubstitutions Samples.failing 0 "build/${name}" Samples.map
  = {| ended := Some (Returned "build/${name}"); calls := [] |}.
Proof.
  destruct (performSubstitutions_without_markers Samples.failing Samples.map 0)
    as [Hplain _].
  apply Hplain; reflexivity.
Defined.

(** A call that raised ends the run: the calls before it all returned, it
    is made once, and its exception is the outcome. *)
Lemma failing_call parseAndRender map fuel input c e :
  c ∈ calls (performSubstitutions parseAndRender fuel input map) →
  parseAndRender c map = Thrown e →
  ended (performSubstitutions parseAndRender fuel input map) = Some (Thrown e)
  ∧ ∃ front,
      calls (performSubstitutions parseAndRender fuel input map) = front ++ [c]
      ∧ advancing parseAndRender map front.
Proof.
  intros Hc He.
  assert (∀ made, advancing parseAndRender map made → c ∈ made → False)
    as Hnot.
  { intros made Hmade Hin.
    destruct (advancing_call _ _ _ _ Hmade Hin) as [_ Hthrown].
    by eapply Hthrown. }
  pose proof (performSubstitutions_shape parseAndRender map fuel input) as Hshape.
  destruct (ended _) as [[r|e']|].
  - destruct Hshape as [[Hadv _]|(front & Hcalls & Hadv & _ & Hr)];
      [by destruct (Hnot _ Hadv Hc)|].
    rewrite Hcalls in Hc.
    apply elem_of_app in Hc as [Hc|Hc%list_elem_of_singleton];
      [by destruct (Hnot _ Hadv Hc)|subst c]. congruence.
  - destruct Hshape as (front & c' & Hcalls & Hadv & _ & Hr).
    rewrite Hcalls in Hc |- *.
    apply elem_of_app in Hc as [Hc|Hc%list_elem_of_singleton];
      [by destruct (Hnot _ Hadv Hc)|subst c].
    split; [congruence|]. by exists front.
  - destruct Hshape as [Hadv _]. by destruct (Hnot _ Hadv Hc).
Qed.

(** C7, as the code has it.  A render call that raises ends the run: every
    call before it returned, it is made once and is the last call, and
    [performSubstitutions] raises the very exception of that call; when
    [performSubstitutions] raises, it is the exception of its last render
    call.  When it returns a string, no render call has raised, and the
    string either has no marker or is a string with a marker that the last
    render call returned as it was given: a returned string is stabilized,
    not always fully expanded. *)
Theorem render_failure_propagates :
  ∀ parseAndRender map fuel input,
    (∀ c e,
       c ∈ calls (performSubstitutions parseAndRender fuel input map) →
       parseAndRender c map = Thrown e →
       ended (performSubstitutions parseAndRender fuel input map)
       = Some (Thrown e)
       ∧ ∃ front,
           calls (performSubstitutions parseAndRender fuel input map)
           = front ++ [c]
           ∧ ∀ c', c' ∈ front → ∃ out, parseAndRender c' map = Returned out)
    ∧ (∀ e,
         ended (performSubstitutions parseAndRender fuel input map)
         = Some (Thrown e) →
         ∃ front c,
           calls (performSubstitutions parseAndRender fuel input map)
           = front ++ [c]
           ∧ parseAndRender c map = Thrown e
           ∧ ∀ c', c' ∈ front → ∃ out, parseAndRender c' map = Returned out)
    ∧ (∀ r,
         ended (performSubstitutions parseAndRender fuel input map)
         = Some (Returned r) →
         (∀ c,
            c ∈ calls (performSubstitutions parseAndRender fuel input map) →
            ∃ out, parseAndRender c map = Returned out)
         ∧ (hasMarkers r = false
            ∨ (hasMarkers r = true
               ∧ parseAndRender r map = Returned r
               ∧ last (calls (performSubstitutions parseAndRender fuel
                                input map)) = Some r))).
Proof.
  intros parseAndRender map fuel input.
  assert (∀ front, advancing parseAndRender map front →
            ∀ c', c' ∈ front → ∃ out, parseAndRender c' map = Returned out)
    as Hreturned.
  { intros front Hadv c' Hc'.
    destruct (Hadv c' Hc') as (_ & out & Hout & _). eauto. }
  pose proof (performSubstitutions_shape parseAndRender map fuel input) as Hshape.
  split; [|split].
  - intros c e Hc He.
    destruct (failing_call parseAndRender map fuel input c e Hc He)
      as (Hend & front & Hcalls & Hadv).
    split; [done|]. exists front. split; [done|]. by apply Hreturned.
  - intros e He. rewrite He in Hshape.
    destruct Hshape as (front & c & Hcalls & Hadv & _ & Hr).
    exists front, c. split; [done|]. split; [done|]. by apply Hreturned.
  - intros r Hr. rewrite Hr in Hshape.
    destruct Hshape as [[Hadv Hplain]|(front & Hcalls & Hadv & Hm & Hsame)].
    + split; [by apply Hreturned|by left].
    + split.
      * intros c. rewrite Hcalls.
        intros [Hc|Hc%list_elem_of_singleton]%elem_of_app.
        -- by apply (Hreturned front).
        -- subst c. eauto.
      * right. split; [done|]. split; [done|]. by rewrite Hcalls, last_snoc.
Qed.

Lemma render_failure_propagates_witness :
  ended (performSubstitutions Samples.failing 5 "{{ a }}" Samples.map)
  = Some (Thrown (LiquidError "undefined variable: b"))
  ∧ ∃ front,
      calls (performSubstitutions Samples.failing 5 "{{ a }}" Samples.map)
      = front ++ ["{{ b }}"]
      ∧ ∀ c', c' ∈ front → ∃ out, Samples.failing c' Samples.map = Returned out.
Proof.
  destruct (render_failure_propagates Samples.failing Samples.map 5 "{{ a }}")
    as [Hraise _].
  apply Hraise.
  - apply list_elem_of_In. vm_compute. auto.
  - reflexivity.
Defined.

(** C7, as stated, fails: with a render capability that returns
    [1 {{ a }}] as it is, no render call raises and
    [performSubstitutions] returns [1 {{ a }}], which is not fully
    expanded: it still has the marker [{{]. *)
Lemma stall_counterexample :
  hasMarkers "1 {{ a }}" = true
  ∧ Cases.stall "1 {{ a }}" Samples.map = Returned "1 {{ a }}"
  ∧ ∀ fuel,
      performSubstitutions Cases.stall (S fuel) "1 {{ a }}" Samples.map
      = {| ended := Some (Returned "1 {{ a }}"); calls := ["1 {{ a }}"] |}.
Proof.
  split; [reflexivity|]. split; [reflexivity|]. intros fuel.
  by rewrite performSubstitutions_loop, renderLoop_unfold.
Qed.

(** C3, as the code has it: the loop ends by its test, on a string without
    markers, or when a render call returns its input (or raises); a string
    that [performSubstitutions] returns is stabilized.  A render call that
    returns its input costs that one call: it is the last call, and on an
    input that renders to itself exactly one call is made.  The loop ends
    for every render capability whose calls that change the string shorten
    a measure of it, within as many calls as the measure of the input plus
    one; it does not end for every render capability. *)
Theorem performSubstitutions_ends :
  ∀ parseAndRender map,
    (∀ fuel input r,
       ended (performSubstitutions parseAndRender fuel input map)
       = Some (Returned r) →
       stabilized parseAndRender map r)
    ∧ (∀ fuel c,
         hasMarkers c = true → parseAndRender c map = Returned c →
         performSubstitutions parseAndRender (S fuel) c map
         = {| ended := Some (Returned c); calls := [c] |})
    ∧ (∀ fuel input c,
         c ∈ calls (performSubstitutions parseAndRender fuel input map) →
         parseAndRender c map = Returned c →
         ended (performSubstitutions parseAndRender fuel input map)
         = Some (Returned c)
         ∧ last (calls (performSubstitutions parseAndRender fuel input map))
           = Some c)
    ∧ (∀ measure : string → nat,
         (∀ c out, hasMarkers c = true →
                   parseAndRender c map = Returned out → out ≠ c →
                   (measure out < measure c)%nat) →
         ∀ input,
           ended (performSubstitutions parseAndRender (S (measure input))
                    input map) ≠ None
           ∧ (length (calls (performSubstitutions parseAndRender
                               (S (measure input)) input map))
              ≤ S (measure input))%nat).
Proof.
  intros parseAndRender map. split; [|split; [|split]].
  - intros fuel input r Hr.
    pose proof (performSubstitutions_shape parseAndRender map fuel input)
      as Hshape.
    rewrite Hr in Hshape.
    destruct Hshape as [[_ Hplain]|(_ & _ & _ & _ & Hsame)];
      [by left|by right].
  - intros fuel c Hc Hsame.
    rewrite performSubstitutions_loop, renderLoop_unfold, Hc, Hsame.
    by rewrite String.eqb_refl.
  - intros fuel input c Hc Hsame.
    destruct (last_call parseAndRender map fuel input c Hc) as [Hlast Hend];
      [eauto|].
    by rewrite Hend, Hsame.
  - intros measure Hdecr input. rewrite performSubstitutions_loop.
    apply (renderLoop_ends parseAndRender map measure); [done|lia].
Qed.

Lemma performSubstitutions_ends_witness :
  ended (performSubstitutions Samples.constant 2 "{{ a }}" Samples.map) ≠ None
  ∧ (length (calls (performSubstitutions Samples.constant 2 "{{ a }}"
                      Samples.map)) ≤ 2)%nat.
Proof.
  destruct (performSubstitutions_ends Samples.constant Samples.map)
    as (_ & _ & _ & Hends).
  apply (Hends (fun s => if hasMarkers s then 1 else 0) ) with (input := "{{ a }}").
  intros c out Hc [= <-] _. rewrite Hc. vm_compute. lia.
Defined.

Lemma growing_never_ends fuel :
  ∀ s made,
    hasMarkers s = true →
    ended (renderLoop Samples.growing fuel Samples.map s s made) = None.
Proof.
  induction fuel as [|fuel IH]; intros s made Hs;
    rewrite renderLoop_unfold, Hs; [done|].
  unfold Samples.growing at 1. rewrite cons_neq.
  by apply IH, hasMarkers_cons.
Qed.

(** C3, as stated, fails: with a render capability that prepends one
    character at each call, the loop on ["{{"] has not ended after any
    number of iterations. *)
Lemma growing_counterexample :
  ¬ ∃ fuel outcome,
      ended (performSubstitutions Samples.growing fuel "{{" Samples.map)
      = Some outcome.
Proof.
  intros (fuel & outcome & Hend).
  rewrite performSubstitutions_loop, growing_never_ends in Hend; done.
Qed.

(** * Further properties *)

(** ** The sanitization filters *)

Local Open Scope string_scope.

Section SanitizeMore.

Variable inClass : ascii → bool.
Hypothesis dash_outside : inClass "-" = false.

Let firstPass := Regex.replaceFrom (Regex.negatedClassPlus inClass) "-".
Let sanitize (s : string) :=
  collapseDashes (Regex.replaceAll (Regex.negatedClassPlus inClass) "-" s).

(** The second pass changes nothing. *)
Lemma sanitize_firstPass s : sanitize s = firstPass 0 s.
Proof.
  unfold sanitize, Regex.replaceAll.
  destruct (firstPass_tidy inClass dash_outside s) as [Ht _].
  by rewrite (collapseDashes_tidy inClass dash_outside _ _ Ht).
Qed.

Lemma tidy_alphabet s b :
  tidy inClass b s = true →
  allChars (fun c => inClass c || (c =? "-")%char) s = true.
Proof.
  revert b. induction s as [|c rest IH]; intros b Ht; [done|].
  cbn [tidy] in Ht. cbn [allChars]. destruct (inClass c).
  - by rewrite (IH _ Ht).
  - apply andb_prop in Ht as [[-> _]%andb_prop Ht]. by rewrite (IH _ Ht).
Qed.

Lemma firstPass_length s :
  (String.length (firstPass 0 s) ≤ String.length s)%nat
  ∧ (String.length (firstPass (Regex.runLength inClass s) s)
     ≤ String.length s)%nat.
Proof.
  unfold firstPass.
  induction s as [|c rest [IH0 IHrun]]; [by split|].
  cbn [Regex.runLength]. destruct (inClass c) eqn:Hc.
  - rewrite (firstPass_in_class inClass) by done. cbn [String.length]. lia.
  - rewrite (firstPass_outside inClass) by done.
    cbn [String.length Regex.replaceFrom]. lia.
Qed.

Lemma firstPass_empty s : firstPass 0 s = "" ↔ s = "".
Proof.
  unfold firstPass. split; [|by intros ->].
  destruct s as [|c rest]; [done|]. destruct (inClass c) eqn:Hc.
  - by rewrite (firstPass_in_class inClass).
  - by rewrite (firstPass_outside inClass).
Qed.

Lemma firstPass_keeps s :
  keepChars inClass (firstPass 0 s) = keepChars inClass s
  ∧ keepChars inClass (firstPass (Regex.runLength inClass s) s)
    = keepChars inClass s.
Proof.
  unfold firstPass.
  induction s as [|c rest [IH0 IHrun]]; [by split|].
  cbn [Regex.runLength]. destruct (inClass c) eqn:Hc.
  - rewrite (firstPass_in_class inClass) by done. cbn [keepChars].
    by rewrite Hc, IH0.
  - rewrite (firstPass_outside inClass) by done.
    cbn [keepChars Regex.replaceFrom]. by rewrite dash_outside, Hc.
Qed.

(** The scan starts afresh at a character of the class. *)
Lemma firstPass_app a c b :
  inClass c = true →
  firstPass 0 (a +:+ String c b) = firstPass 0 a +:+ String c (firstPass 0 b)
  ∧ firstPass (Regex.runLength inClass (a +:+ String c b)) (a +:+ String c b)
    = firstPass (Regex.runLength inClass a) a +:+ String c (firstPass 0 b).
Proof.
  unfold firstPass. intros Hc. induction a as [|d a [IH0 IHrun]].
  - change ("" +:+ String c b) with (String c b).
    cbn [Regex.runLength]. rewrite Hc.
    by rewrite (firstPass_in_class inClass).
  - change (String d a +:+ String c b) with (String d (a +:+ String c b)).
    cbn [Regex.runLength]. destruct (inClass d) eqn:Hd.
    + rewrite !(firstPass_in_class inClass) by done. by rewrite IH0.
    + rewrite !(firstPass_outside inClass) by done.
      cbn [Regex.replaceFrom]. by rewrite IHrun.
Qed.

Lemma sanitize_fixed s : sanitize s = s ↔ tidy inClass false s = true.
Proof.
  split.
  - intros <-. apply sanitize_tidy, dash_outside.
  - apply sanitize_of_tidy, dash_outside.
Qed.

End SanitizeMore.

Lemma filterPosixPath_firstPass s :
  filterPosixPath s
  = Regex.replaceFrom (Regex.negatedClassPlus posixClass) "-" 0 s.
Proof. apply sanitize_firstPass, posix_dash_outside. Qed.

Lemma filterWin32Path_firstPass s :
  filterWin32Path s
  = Regex.replaceFrom (Regex.negatedClassPlus win32Class) "-" 0 s.
Proof. apply sanitize_firstPass, win32_dash_outside. Qed.

(** X1: [filterPath] is idempotent on every host. *)
Theorem filterPath_idempotent :
  ∀ host s, filterPath host (filterPath host s) = filterPath host s.
Proof.
  intros host s. rewrite !filterPath_cases. destruct (_ =? _)%string.
  - apply (sanitize_of_tidy win32Class win32_dash_outside _ false),
      filterWin32Path_tidy.
  - apply (sanitize_of_tidy posixClass posix_dash_outside _ false),
      filterPosixPath_tidy.
Qed.

(** X2: the output of a filter has only characters of its class and
    dashes: letters, digits, [-] and [/] for [filterPosixPath]; letters,
    digits, [-], the backslash and [:] for [filterWin32Path]; [filterPath]
    has the alphabet of the one or the other, by the platform. *)
Theorem filters_alphabet :
  ∀ host s,
    allChars (fun c => posixClass c || (c =? "-")%char) (filterPosixPath s)
    = true
    ∧ allChars (fun c => win32Class c || (c =? "-")%char) (filterWin32Path s)
      = true
    ∧ allChars
        (fun c =>
           (if (platform (os_module host) =? "win32")%string
            then win32Class c else posixClass c) || (c =? "-")%char)
        (filterPath host s)
      = true.
Proof.
  intros host s.
  pose proof (tidy_alphabet posixClass _ _ (filterPosixPath_tidy s)) as Hp.
  pose proof (tidy_alphabet win32Class _ _ (filterWin32Path_tidy s)) as Hw.
  rewrite filterPath_cases. by destruct (_ =? _)%string.
Qed.

(** X3: the strings that a filter leaves unchanged are the sanitized ones:
    made of characters of the class and of dashes, without two dashes in a
    row. *)
Theorem filters_fixed_points :
  ∀ s,
    (filterPosixPath s = s ↔ tidy posixClass false s = true)
    ∧ (filterWin32Path s = s ↔ tidy win32Class false s = true).
Proof.
  intros s. split.
  - apply (sanitize_fixed posixClass posix_dash_outside).
  - apply (sanitize_fixed win32Class win32_dash_outside).
Qed.

Lemma filters_fixed_points_witness :
  filterPosixPath "usr/local-2/bin" = "usr/local-2/bin"
  ∧ filterWin32Path "C:\tools\bin" = "C:\tools\bin".
Proof.
  destruct (filters_fixed_points "usr/local-2/bin") as [[_ Hp] _].
  destruct (filters_fixed_points "C:\tools\bin") as [_ [_ Hw]].
  split; [apply Hp|apply Hw]; vm_compute; reflexivity.
Defined.

(** X4: the output of a filter is never longer than its input, and it is
    empty for the empty input only. *)
Theorem filters_length :
  ∀ host s,
    (String.length (filterPosixPath s) ≤ String.length s)%nat
    ∧ (String.length (filterWin32Path s) ≤ String.length s)%nat
    ∧ (String.length (filterPath host s) ≤ String.length s)%nat
    ∧ (filterPosixPath s = "" ↔ s = "")
    ∧ (filterWin32Path s = "" ↔ s = "")
    ∧ (filterPath host s = "" ↔ s = "").
Proof.
  intros host s.
  rewrite filterPath_cases, filterPosixPath_firstPass, filterWin32Path_firstPass.
  destruct (firstPass_length posixClass s) as [Hp _].
  destruct (firstPass_length win32Class s) as [Hw _].
  pose proof (firstPass_empty posixClass s) as Hpe.
  pose proof (firstPass_empty win32Class s) as Hwe.
  do 2 (split; [done|]). split; [by destruct (_ =? _)%string|].
  do 2 (split; [done|]). by destruct (_ =? _)%string.
Qed.

Lemma filters_length_witness :
  filterPosixPath "" = "" ∧ filterPath Samples.windows "" = "".
Proof.
  destruct (filters_length Samples.windows "") as (_ & _ & _ & Hp & _ & Hn).
  split; [by apply Hp|by apply Hn].
Defined.

(** X5: a filter keeps the characters of its class, in their order and in
    their case; only the characters outside the class are replaced. *)
Theorem filters_keep_class :
  ∀ s,
    keepChars posixClass (filterPosixPath s) = keepChars posixClass s
    ∧ keepChars win32Class (filterWin32Path s) = keepChars win32Class s.
Proof.
  intros s. rewrite filterPosixPath_firstPass, filterWin32Path_firstPass.
  destruct (firstPass_keeps posixClass posix_dash_outside s) as [Hp _].
  destruct (firstPass_keeps win32Class win32_dash_outside s) as [Hw _].
  by split.
Qed.

(** X6: the pass that replaces [--] by [-] never changes anything: each
    filter is its first replacement alone. *)
Theorem collapse_pass_changes_nothing :
  ∀ s,
    filterPosixPath s
    = Regex.replaceAll (Regex.negatedClassPlus posixClass) "-" s
    ∧ filterWin32Path s
      = Regex.replaceAll (Regex.negatedClassPlus win32Class) "-" s
    ∧ collapseDashes (filterPosixPath s) = filterPosixPath s
    ∧ collapseDashes (filterWin32Path s) = filterWin32Path s.
Proof.
  intros s. split; [apply filterPosixPath_firstPass|].
  split; [apply filterWin32Path_firstPass|]. split.
  - apply (collapseDashes_tidy posixClass posix_dash_outside _ false),
      filterPosixPath_tidy.
  - apply (collapseDashes_tidy win32Class win32_dash_outside _ false),
      filterWin32Path_tidy.
Qed.

(** X7: a filter works segment by segment: a separator that its class
    keeps ([/] for [filterPosixPath], the backslash and [:] for
    [filterWin32Path]) stays where it is and the text on either side of it
    is filtered on its own. *)
Theorem filters_by_segment :
  ∀ a b,
    filterPosixPath (a +:+ "/" +:+ b)
    = filterPosixPath a +:+ "/" +:+ filterPosixPath b
    ∧ filterWin32Path (a +:+ "\" +:+ b)
      = filterWin32Path a +:+ "\" +:+ filterWin32Path b
    ∧ filterWin32Path (a +:+ ":" +:+ b)
      = filterWin32Path a +:+ ":" +:+ filterWin32Path b.
Proof.
  intros a b. rewrite !filterPosixPath_firstPass, !filterWin32Path_firstPass.
  change (a +:+ "/" +:+ b) with (a +:+ String "/" b).
  change (a +:+ "\" +:+ b) with (a +:+ String "\" b).
  change (a +:+ ":" +:+ b) with (a +:+ String ":" b).
  split; [|split].
  - by destruct (firstPass_app posixClass a "/" b eq_refl) as [-> _].
  - by destruct (firstPass_app win32Class a "\" b eq_refl) as [-> _].
  - by destruct (firstPass_app win32Class a ":" b eq_refl) as [-> _].
Qed.

(** ** General purpose functions *)

(** X8: [_isJsonObject] holds of objects only: not of [undefined], of
    [null], of a boolean, a number or a string, nor of an array; and
    [_isPrimitive] fails of arrays and objects only. *)
Theorem isJsonObject_objects_only :
  ∀ value,
    (_isJsonObject value = true ↔ ∃ fields, value = Some (JObj fields))
    ∧ (_isPrimitive value = false
       ↔ (∃ items, value = Some (JArr items))
         ∨ (∃ fields, value = Some (JObj fields))).
Proof.
  intros [[| | | |items|fields]|]; cbn; split; split;
    try discriminate; try (intros [? [=]]); try (intros [[? [=]]|[? [=]]]);
    eauto.
Qed.

Lemma isJsonObject_objects_only_witness :
  _isJsonObject (Some (JObj Samples.base)) = true
  ∧ _isPrimitive (Some (JArr [])) = false.
Proof.
  split.
  - apply (isJsonObject_objects_only (Some (JObj Samples.base))). eauto.
  - apply (isJsonObject_objects_only (Some (JArr []))). left. eauto.
Defined.

(** One step of the loop of [_joinMultiLineProperties]. *)
Lemma flatten_step host key value (done : Outcome (gmap string Json)) result' :
  (result ← done;
   flat ← match value with
          | JArr lines => JStr <$> Js.join lines (EOL (os_module host))
          | _ => Returned value
          end;
   Returned (Js.assign result key flat)) = Returned result' →
  ∃ result flat,
    done = Returned result ∧ result' = Js.assign result key flat
    ∧ ((∀ items, value ≠ JArr items) → flat = value)
    ∧ (∀ items, value = JArr items →
         ∃ joined, Js.join items (EOL (os_module host)) = Returned joined
                   ∧ flat = JStr joined).
Proof.
  destruct done as [result|e]; [|discriminate]. cbn [mbind Outcome_bind].
  destruct value as [| | | |items|fields]; cbn [mbind Outcome_bind mret Outcome_ret];
    try (intros [= <-]; eexists _, _; split; [done|]; split; [done|];
         split; [done|]; intros ? [=]).
  destruct (Js.join items _) as [joined|e] eqn:Hjoin; [|discriminate].
  cbn. intros [= <-]. eexists _, _. split; [done|]. split; [done|]. split.
  - intros Hne. by destruct (Hne items).
  - intros ? [= <-]. eauto.
Qed.

(** Whatever the values: when flattening returns, the result has the keys
    of the object but [__proto__]; under any other key a value that is no
    array is kept as it is, and an array has become the string that [join]
    gives. *)
Lemma joinMultiLineProperties_any host obj result :
  _joinMultiLineProperties host (Some (JObj obj)) = Returned result →
  (∀ key, result !! key = None ↔ obj !! key = None ∨ key = "__proto__")
  ∧ (∀ key value, key ≠ "__proto__" → obj !! key = Some value →
       (∀ items, value ≠ JArr items) → result !! key = Some value)
  ∧ (∀ key items, key ≠ "__proto__" → obj !! key = Some (JArr items) →
       ∃ joined, Js.join items (EOL (os_module host)) = Returned joined
                 ∧ result !! key = Some (JStr joined)).
Proof.
  unfold _joinMultiLineProperties.
  cbn [Js.entries Js.ownEnumerable mbind Outcome_bind].
  revert result.
  apply (map_fold_weak_ind (fun done m =>
    ∀ result, done = Returned result →
      (∀ key, result !! key = None ↔ m !! key = None ∨ key = "__proto__")
      ∧ (∀ key value, key ≠ "__proto__" → m !! key = Some value →
           (∀ items, value ≠ JArr items) → result !! key = Some value)
      ∧ (∀ key items, key ≠ "__proto__" → m !! key = Some (JArr items) →
           ∃ joined, Js.join items (EOL (os_module host)) = Returned joined
                     ∧ result !! key = Some (JStr joined)))).
  - intros result [= <-]. split; [|split].
    + intros key. rewrite !lookup_empty. tauto.
    + intros key value _. by rewrite lookup_empty.
    + intros key items _. by rewrite lookup_empty.
  - intros key value m done Hfresh IH result' Hstep.
    apply flatten_step in Hstep
      as (result & flat & -> & -> & Hkeep & Hjoin).
    destruct (IH result eq_refl) as (Hdom & Hother & Harr).
    split; [|split].
    + intros k. rewrite lookup_assign. case_decide as Hk.
      * destruct Hk as [-> Hne]. rewrite lookup_insert_eq.
        split; [discriminate|]. by intros [|].
      * rewrite Hdom. destruct (decide (key = k)) as [->|Hne].
        -- destruct (decide (k = "__proto__")) as [->|Hp]; [tauto|].
           by destruct Hk.
        -- by rewrite lookup_insert_ne.
    + intros k v Hk. rewrite lookup_assign.
      destruct (decide (key = k)) as [->|Hne].
      * rewrite decide_True by done. rewrite lookup_insert_eq.
        intros [= ->] Hv. by rewrite Hkeep.
      * rewrite decide_False by (by intros [? _]).
        rewrite lookup_insert_ne by done. by apply Hother.
    + intros k items Hk. rewrite lookup_assign.
      destruct (decide (key = k)) as [->|Hne].
      * rewrite decide_True by done. rewrite lookup_insert_eq. intros [= ->].
        destruct (Hjoin items eq_refl) as (joined & Hj & ->). eauto.
      * rewrite decide_False by (by intros [? _]).
        rewrite lookup_insert_ne by done. by apply Harr.
Qed.

(** The result of flattening has no array value. *)
Lemma joinMultiLineProperties_no_array_left host obj result :
  _joinMultiLineProperties host (Some (JObj obj)) = Returned result →
  ∀ key value, result !! key = Some value → ∀ items, value ≠ JArr items.
Proof.
  intros Hrun key value Hkey items ->.
  destruct (joinMultiLineProperties_any host obj result Hrun)
    as (Hdom & Hother & Harr).
  assert (key ≠ "__proto__") as Hne.
  { intros ->. destruct (Hdom "__proto__") as [_ Hd].
    rewrite Hd in Hkey by (by right). discriminate. }
  destruct (obj !! key) as [v|] eqn:Hv.
  - destruct v as [| | | |items'|fields];
      try (rewrite (Hother _ _ Hne Hv) in Hkey; [discriminate|discriminate]).
    destruct (Harr _ _ Hne Hv) as (joined & _ & Hr). congruence.
  - destruct (Hdom key) as [_ Hd]. rewrite Hd in Hkey by (by left).
    discriminate.
Qed.

(** An object without array values and without the key [__proto__] is
    flattened to itself. *)
Lemma joinMultiLineProperties_no_array host obj :
  (∀ key value, obj !! key = Some value → ∀ items, value ≠ JArr items) →
  obj !! "__proto__" = None →
  _joinMultiLineProperties host (Some (JObj obj)) = Returned obj.
Proof.
  unfold _joinMultiLineProperties.
  cbn [Js.entries Js.ownEnumerable mbind Outcome_bind].
  apply (map_fold_weak_ind (fun done m =>
    (∀ key value, m !! key = Some value → ∀ items, value ≠ JArr items) →
    m !! "__proto__" = None →
    done = Returned m)).
  - done.
  - intros key value m done Hfresh IH Hno Hproto.
    assert (key ≠ "__proto__") as Hkey.
    { intros ->. by rewrite lookup_insert_eq in Hproto. }
    rewrite lookup_insert_ne in Hproto by done.
    rewrite IH; [| |done].
    + cbn [mbind Outcome_bind]. unfold Js.assign.
      apply String.eqb_neq in Hkey as ->.
      pose proof (Hno key value (lookup_insert_eq _ _ _)) as Hvalue.
      destruct value; try done. by destruct (Hvalue items).
    + intros k v Hk. apply (Hno k). rewrite lookup_insert_ne; [done|].
      intros ->. congruence.
Qed.

(** X9: [_joinMultiLineProperties] on any object, whatever its values.
    When it returns, the result has the keys of the object but
    [__proto__], which it never has; under every other key a value that is
    not an array (a string, a number, [null], a nested object) is passed
    through unchanged and an array has become the string of its [join]
    with the end-of-line marker; no value of the result is an array. *)
Theorem joinMultiLineProperties_passes_through :
  ∀ host obj result,
    _joinMultiLineProperties host (Some (JObj obj)) = Returned result →
    (∀ key, is_Some (result !! key)
            ↔ is_Some (obj !! key) ∧ key ≠ "__proto__")
    ∧ result !! "__proto__" = None
    ∧ (∀ key value, key ≠ "__proto__" → obj !! key = Some value →
         (∀ items, value ≠ JArr items) → result !! key = Some value)
    ∧ (∀ key items, key ≠ "__proto__" → obj !! key = Some (JArr items) →
         ∃ joined, Js.join items (EOL (os_module host)) = Returned joined
                   ∧ result !! key = Some (JStr joined))
    ∧ (∀ key value, result !! key = Some value → ∀ items, value ≠ JArr items).
Proof.
  intros host obj result Hrun.
  destruct (joinMultiLineProperties_any host obj result Hrun)
    as (Hdom & Hother & Harr).
  split; [|split; [|split; [done|split; [done|]]]].
  - intros key. rewrite <- !not_eq_None_Some, Hdom. tauto.
  - apply Hdom. by right.
  - by eapply joinMultiLineProperties_no_array_left.
Qed.

Lemma untyped_returns :
  ∃ result,
    _joinMultiLineProperties Samples.linux (Some (JObj Cases.untyped))
    = Returned result.
Proof. vm_compute. eauto. Qed.

Lemma joinMultiLineProperties_passes_through_witness :
  ∃ result,
    _joinMultiLineProperties Samples.linux (Some (JObj Cases.untyped))
    = Returned result
    ∧ result !! "count" = Some (JNum "3")
    ∧ result !! "nested" = Some (JObj {[ "x" := JArr [JStr "y"] ]})
    ∧ result !! "__proto__" = None.
Proof.
  destruct untyped_returns as [result Hrun]. exists result.
  destruct (joinMultiLineProperties_passes_through Samples.linux Cases.untyped
              result Hrun) as (_ & Hproto & Hkeep & _).
  split; [exact Hrun|].
  split; [|split; [|exact Hproto]];
    apply Hkeep; (reflexivity || discriminate).
Defined.

(** X10: flattening is idempotent: the result of
    [_joinMultiLineProperties], flattened again, is itself. *)
Theorem joinMultiLineProperties_idempotent :
  ∀ host (obj : gmap string Json) result,
    _joinMultiLineProperties host (Some (JObj obj)) = Returned result →
    _joinMultiLineProperties host (Some (JObj result)) = Returned result.
Proof.
  intros host obj result Hrun.
  apply joinMultiLineProperties_no_array.
  - by eapply joinMultiLineProperties_no_array_left.
  - destruct (joinMultiLineProperties_any host obj result Hrun) as (Hdom & _).
    apply Hdom. by right.
Qed.

Lemma joinMultiLineProperties_idempotent_witness :
  ∃ result,
    _joinMultiLineProperties Samples.linux (Some (JObj Samples.multiLine))
    = Returned result
    ∧ _joinMultiLineProperties Samples.linux (Some (JObj result))
      = Returned result.
Proof.
  destruct (joinMultiLineProperties_typed Samples.linux Samples.multiLine
              multiLine_isProperties) as (result & Hrun & _).
  exists result. split; [exact Hrun|].
  exact (joinMultiLineProperties_idempotent Samples.linux Samples.multiLine
           result Hrun).
Defined.

(** ** [prepareMap] *)

(** X11: the two assertions of [prepareMap].  A descriptor that is not
    truthy ([undefined], [null], [false], [0], the empty string) raises an
    [AssertionError], on every host and for every name; a truthy descriptor
    on a runtime without [os.version] raises the [AssertionError] of the
    second assertion, whatever the descriptor holds. *)
Theorem prepareMap_assertions :
  ∀ host packageJson name,
    (Js.truthy packageJson = false →
     prepareMap host packageJson name = Thrown (AssertionError None))
    ∧ (Js.truthy packageJson = true → os_has_version host = false →
       prepareMap host packageJson name
       = Thrown (AssertionError
                   (Some "Mandatory os.version available only since 12.x")))
    ∧ prepareMap host undefined name = Thrown (AssertionError None)
    ∧ prepareMap host (Some JNull) name = Thrown (AssertionError None)
    ∧ prepareMap host (Some (JStr "")) name = Thrown (AssertionError None)
    ∧ prepareMap host (Some (JNum "0")) name = Thrown (AssertionError None).
Proof.
  intros host packageJson name. unfold prepareMap. split; [|split].
  - by intros ->.
  - by intros -> ->.
  - done.
Qed.

Lemma prepareMap_assertions_witness :
  prepareMap Samples.linux (Some (JBool false)) (Some "dev")
  = Thrown (AssertionError None)
  ∧ prepareMap Cases.oldNode Samples.descriptor (Some "dev")
    = Thrown (AssertionError
                (Some "Mandatory os.version available only since 12.x")).
Proof.
  split.
  - apply (prepareMap_assertions Samples.linux (Some (JBool false))).
    reflexivity.
  - apply (prepareMap_assertions Cases.oldNode Samples.descriptor);
      reflexivity.
Defined.

(** X12: a configuration name that is blank after trimming is the same as
    no name: for every host and descriptor, [prepareMap] gives the same
    outcome. *)
Theorem prepareMap_blank_name :
  ∀ host packageJson name,
    Str.trim name = "" →
    prepareMap host packageJson (Some name) = prepareMap host packageJson None.
Proof.
  intros host packageJson name Hname. unfold prepareMap.
  rewrite Hname. reflexivity.
Qed.

Lemma prepareMap_blank_name_witness :
  prepareMap Samples.linux Samples.descriptor (Some "   ")
  = prepareMap Samples.linux Samples.descriptor None.
Proof.
  apply (prepareMap_blank_name Samples.linux Samples.descriptor "   ").
  reflexivity.
Defined.

Lemma index_object host fields key :
  fields !! key = None →
  Js.index host (Some (JObj fields)) key
  = Returned (if bool_decide (key ∈ Js.objectPrototype)
              then Js.Builtin else Js.Absent).
Proof.
  intros Hkey. unfold Js.index. cbn [Js.get mbind Outcome_bind].
  by rewrite Hkey.
Qed.

(** X13: a non-blank name that is no key of the [buildConfigurations]
    object.  If the name is no member of [Object.prototype] either,
    [prepareMap] raises the error that names it,
    [Error("package.json has no buildConfiguration.<name>")].  If it is one
    ([toString], [constructor], [__proto__] and the like), the read finds
    the inherited member: nothing is raised, and the map has the
    configuration [{name}] and the base properties. *)
Theorem prepareMap_missing_configuration :
  ∀ host pkg xpack cfgs name,
    os_has_version host = true →
    Str.trim name ≠ "" →
    pkg !! "xpack" = Some (JObj xpack) →
    typedProperties (xpack !! "properties") →
    xpack !! "buildConfigurations" = Some (JObj cfgs) →
    cfgs !! name = None →
    (name ∉ Js.objectPrototype →
     prepareMap host (Some (JObj pkg)) (Some name)
     = Thrown (Error ("package.json has no buildConfiguration." +:+ name)))
    ∧ (name ∈ Js.objectPrototype →
       ∃ base,
         prepareMap host (Some (JObj pkg)) (Some name)
         = Returned
             {| env := process_env host; os := os_module host;
                path := path_module host; package := Some (JObj pkg);
                configuration := Some {[ "name" := JStr name ]};
                properties := Some base |}
         ∧ (∀ obj, xpack !! "properties" = Some (JObj obj) →
              _joinMultiLineProperties host (Some (JObj obj)) = Returned base)
         ∧ (_isJsonObject (xpack !! "properties") = false → base = ∅)).
Proof.
  intros host pkg xpack cfgs name Hhost Hname%non_blank Hx Ht Hb Hc.
  split; intros Hmember; prepareMap_enter Hhost Hx;
    destruct (base_properties_typed host _ (hostFacts host (Some (JObj pkg))) Ht)
      as (base & -> & Hbase & Hbase0);
    cbn [mbind Outcome_bind]; rewrite Hname, Hb;
    cbn [negb isDefined]; rewrite (index_object host cfgs name Hc);
    cbn [mbind Outcome_bind].
  - by rewrite bool_decide_false.
  - rewrite bool_decide_true by done.
    cbn [Js.isAbsent Js.getProperties Js.spread mbind Outcome_bind
         _isJsonObject isDefined andb].
    exists base. rewrite insert_empty. split; [reflexivity|]. split; [|done].
    intros obj Ho. rewrite <- Ho. by apply (Hbase obj).
Qed.

Lemma prepareMap_missing_configuration_witness :
  prepareMap Samples.linux Samples.descriptor (Some "release")
  = Thrown (Error "package.json has no buildConfiguration.release")
  ∧ ∃ base,
      prepareMap Samples.linux (Some (JObj Cases.emptyConfigurations))
        (Some "toString")
      = Returned
          {| env := process_env Samples.linux; os := os_module Samples.linux;
             path := path_module Samples.linux;
             package := Some (JObj Cases.emptyConfigurations);
             configuration := Some {[ "name" := JStr "toString" ]};
             properties := Some base |}.
Proof.
  split.
  - apply (prepareMap_missing_configuration Samples.linux Samples.manifest
             Samples.xpack Samples.configurations "release").
    + reflexivity.
    + vm_compute. discriminate.
    + reflexivity.
    + apply typedProperties_object, isProperties_singleton.
    + reflexivity.
    + reflexivity.
    + rewrite list_elem_of_In. vm_compute. intuition discriminate.
  - destruct (prepareMap_missing_configuration Samples.linux
                Cases.emptyConfigurations
                {[ "buildConfigurations" := JObj ∅ ]} ∅ "toString")
      as [_ Hfound].
    + reflexivity.
    + vm_compute. discriminate.
    + reflexivity.
    + apply typedProperties_undefined.
    + reflexivity.
    + reflexivity.
    + destruct Hfound as (base & Hrun & _).
      * apply list_elem_of_In. vm_compute. tauto.
      * by exists base.
Defined.

(** X14: [null] where an object is expected raises a [TypeError], not one
    of the two descriptive errors: a [buildConfigurations] member that is
    [null] (it is not [undefined], and reading the name from it raises),
    and a configuration entry that is [null] (reading its [properties]
    raises). *)
Theorem prepareMap_null :
  ∀ host pkg xpack name,
    os_has_version host = true →
    Str.trim name ≠ "" →
    pkg !! "xpack" = Some (JObj xpack) →
    typedProperties (xpack !! "properties") →
    (xpack !! "buildConfigurations" = Some JNull →
     prepareMap host (Some (JObj pkg)) (Some name) = Thrown TypeError)
    ∧ (∀ cfgs,
         xpack !! "buildConfigurations" = Some (JObj cfgs) →
         cfgs !! name = Some JNull →
         prepareMap host (Some (JObj pkg)) (Some name) = Thrown TypeError).
Proof.
  intros host pkg xpack name Hhost Hname%non_blank Hx Ht.
  split; [intros Hb|intros cfgs Hb Hc];
    prepareMap_enter Hhost Hx;
    destruct (base_properties_typed host _ (hostFacts host (Some (JObj pkg))) Ht)
      as (base & -> & _);
    cbn [mbind Outcome_bind]; rewrite Hname, Hb;
    cbn [negb isDefined Js.index Js.get mbind Outcome_bind]; [done|].
  by rewrite Hc.
Qed.

Lemma prepareMap_null_witness :
  prepareMap Samples.linux (Some (JObj Cases.nullConfigurations)) (Some "dev")
  = Thrown TypeError
  ∧ prepareMap Samples.linux (Some (JObj Cases.nullEntry)) (Some "dev")
    = Thrown TypeError.
Proof.
  split.
  - apply (prepareMap_null Samples.linux Cases.nullConfigurations
             {[ "buildConfigurations" := JNull ]} "dev");
      [reflexivity | vm_compute; discriminate | reflexivity
      | apply typedProperties_undefined | reflexivity].
  - apply (prepareMap_null Samples.linux Cases.nullEntry
             {[ "buildConfigurations" := JObj {[ "dev" := JNull ]} ]} "dev")
      with (cfgs := {[ "dev" := JNull ]});
      [reflexivity | vm_compute; discriminate | reflexivity
      | apply typedProperties_undefined | reflexivity | reflexivity].
Defined.

(** Every way in which [prepareMap] returns. *)
Ltac prepareMap_cases H :=
  unfold prepareMap, mbind, Outcome_bind, mret, Outcome_ret in H;
  repeat case_match; simplify_eq; cbn.

(** X15: whatever the descriptor and the name, a map that [prepareMap]
    returns carries the environment, the [os] facts and the [path] facts
    of the host and the descriptor itself, and its [properties] member is
    always present. *)
Theorem prepareMap_host_facts :
  ∀ host packageJson name m,
    prepareMap host packageJson name = Returned m →
    env m = process_env host
    ∧ os m = os_module host
    ∧ path m = path_module host
    ∧ package m = packageJson
    ∧ is_Some (properties m).
Proof.
  intros host packageJson name m Hrun.
  prepareMap_cases Hrun; eauto 10.
Qed.

Lemma prepareMap_host_facts_witness :
  ∃ m,
    prepareMap Samples.linux Samples.descriptor (Some "dev") = Returned m
    ∧ env m = process_env Samples.linux ∧ package m = Samples.descriptor.
Proof.
  destruct (prepareMap Samples.linux Samples.descriptor (Some "dev"))
    as [m|e] eqn:Hrun; [|vm_compute in Hrun; discriminate].
  destruct (prepareMap_host_facts _ _ _ _ Hrun) as (He & _ & _ & Hp & _).
  exists m. by split.
Defined.

(** X16: the [configuration] of a returned map.  When it is present, a
    configuration name was given, is not blank, and is the [name] field of
    the configuration, whatever the entry is (an object, an array, a
    string); without a name, or with a blank one, it is absent. *)
Theorem prepareMap_configuration_name :
  ∀ host packageJson name m,
    prepareMap host packageJson name = Returned m →
    (∀ c, configuration m = Some c →
          ∃ n, name = Some n ∧ Str.trim n ≠ ""
               ∧ c !! "name" = Some (JStr n))
    ∧ ((name = None ∨ ∃ n, name = Some n ∧ Str.trim n = "") →
       configuration m = None).
Proof.
  intros host packageJson name m Hrun.
  prepareMap_cases Hrun; split; intros; simplify_eq;
    try done;
    try (eexists; split; [done|]; split;
         [by apply String.eqb_neq, negb_true_iff|apply lookup_insert_eq]);
    try match goal with
        | H : _ ∨ _, H' : negb (Str.trim _ =? "")%string = true |- _ =>
            destruct H as [?|(n & [= <-] & Hn)]; [done|];
            rewrite Hn in H'; discriminate
        end.
Qed.

Lemma prepareMap_configuration_name_witness :
  ∃ m c,
    prepareMap Samples.linux Samples.descriptor (Some "dev") = Returned m
    ∧ configuration m = Some c ∧ c !! "name" = Some (JStr "dev").
Proof.
  destruct (prepareMap Samples.linux Samples.descriptor (Some "dev"))
    as [m|e] eqn:Hrun; [|vm_compute in Hrun; discriminate].
  destruct (prepareMap_configuration_name _ _ _ _ Hrun) as [Hc _].
  destruct (configuration m) as [c|] eqn:Hcfg.
  - exists m, c. split; [done|]. split; [done|].
    destruct (Hc c eq_refl) as (n & [= <-] & _ & Hn). exact Hn.
  - exfalso. vm_compute in Hrun. injection Hrun as <-.
    vm_compute in Hcfg. discriminate.
Defined.

(** X17: without a configuration name the properties are the flattened
    [xpack.properties] and nothing else, and no configuration is set;
    nothing of [buildConfigurations] is looked at. *)
Theorem prepareMap_without_name :
  ∀ host pkg xpack base flat,
    os_has_version host = true →
    pkg !! "xpack" = Some (JObj xpack) →
    xpack !! "properties" = Some (JObj base) →
    _joinMultiLineProperties host (Some (JObj base)) = Returned flat →
    prepareMap host (Some (JObj pkg)) None
    = Returned
        {| env := process_env host; os := os_module host;
           path := path_module host; package := Some (JObj pkg);
           configuration := None; properties := Some flat |}.
Proof.
  intros host pkg xpack base flat Hhost Hx Hbase Hflat.
  prepareMap_enter Hhost Hx. rewrite Hbase.
  cbn [_isJsonObject isDefined _isPrimitive isArray negb andb].
  by rewrite Hflat.
Qed.

Lemma prepareMap_without_name_witness :
  prepareMap Samples.linux (Some (JObj Samples.noConfigurations)) None
  = Returned
      {| env := process_env Samples.linux; os := os_module Samples.linux;
         path := path_module Samples.linux;
         package := Some (JObj Samples.noConfigurations);
         configuration := None;
         properties := Some {[ "a" := JStr "1" ]} |}.
Proof.
  apply (prepareMap_without_name Samples.linux Samples.noConfigurations
           Samples.xpackOnlyProperties Samples.base);
    reflexivity.
Defined.

Lemma typedProperties_not_object value :
  _isJsonObject value = false → typedProperties value.
Proof. by intros Hv obj ->. Qed.

Lemma allStrings_flat host obj result :
  isProperties obj →
  _joinMultiLineProperties host (Some (JObj obj)) = Returned result →
  allStrings result.
Proof.
  intros Hp Hrun key value Hkey.
  destruct (joinMultiLineProperties_typed host obj Hp)
    as (result' & Hrun' & Hdom & Hstr & Hlines).
  rewrite Hrun in Hrun'. injection Hrun' as <-.
  assert (key ≠ "__proto__") as Hne.
  { intros ->. destruct (Hdom "__proto__") as [_ Hd].
    rewrite Hd in Hkey by (by right). discriminate. }
  destruct (obj !! key) as [v|] eqn:Hv.
  - destruct (Hp key v Hv) as [[s ->]|[lines ->]].
    + rewrite (Hstr _ _ Hne Hv) in Hkey. injection Hkey as <-. eauto.
    + rewrite (Hlines _ _ Hne Hv) in Hkey. injection Hkey as <-. eauto.
  - destruct (Hdom key) as [_ Hd]. rewrite Hd in Hkey by (by left).
    discriminate.
Qed.

(** X18: a selected configuration whose entry has no [properties] object
    leaves the properties as they are: the map has the configuration and
    the flattened base properties. *)
Theorem prepareMap_configuration_without_properties :
  ∀ host pkg xpack base cfgs entry name,
    os_has_version host = true →
    Str.trim name ≠ "" →
    pkg !! "xpack" = Some (JObj xpack) →
    xpack !! "properties" = Some (JObj base) → isProperties base →
    xpack !! "buildConfigurations" = Some (JObj cfgs) →
    cfgs !! name = Some (JObj entry) →
    _isJsonObject (entry !! "properties") = false →
    ∃ flat,
      _joinMultiLineProperties host (Some (JObj base)) = Returned flat
      ∧ prepareMap host (Some (JObj pkg)) (Some name)
        = Returned
            {| env := process_env host; os := os_module host;
               path := path_module host; package := Some (JObj pkg);
               configuration := Some (<["name" := JStr name]> entry);
               properties := Some flat |}.
Proof.
  intros host pkg xpack base cfgs entry name
    Hhost Hname Hx Hbase Hpb Hb Hc Hno.
  destruct (prepareMap_selected host pkg xpack cfgs entry name)
    as (fb & fo & Hrun & Hfb & _ & _ & Hfo); try done.
  { rewrite Hbase. by apply typedProperties_object. }
  { by apply typedProperties_not_object. }
  exists fb. split; [by apply Hfb|].
  rewrite Hrun, (Hfo Hno). by rewrite (left_id_L ∅ (∪)).
Qed.

Lemma prepareMap_configuration_without_properties_witness :
  ∃ m,
    prepareMap Samples.linux (Some (JObj Cases.plainEntry)) (Some "dev")
    = Returned m
    ∧ properties m = Some {[ "a" := JStr "1" ]}
    ∧ configuration m
      = Some {[ "name" := JStr "dev"; "target" := JStr "host" ]}.
Proof.
  destruct (prepareMap_configuration_without_properties Samples.linux
              Cases.plainEntry Cases.plainEntryXpack Samples.base
              {[ "dev" := JObj Samples.blankEntry ]} Samples.blankEntry "dev")
    as (flat & Hflat & Hrun);
    [reflexivity | vm_compute; discriminate | reflexivity | reflexivity
    | apply isProperties_singleton | reflexivity | reflexivity | reflexivity|].
  eexists. split; [exact Hrun|].
  vm_compute in Hflat. injection Hflat as <-. split; reflexivity.
Defined.

(** X19: with properties of the declared type in the descriptor and in the
    selected entry, every value of the properties of the returned map is a
    single string. *)
Theorem prepareMap_properties_are_strings :
  ∀ host pkg xpack cfgs entry name,
    os_has_version host = true →
    Str.trim name ≠ "" →
    pkg !! "xpack" = Some (JObj xpack) →
    typedProperties (xpack !! "properties") →
    xpack !! "buildConfigurations" = Some (JObj cfgs) →
    cfgs !! name = Some (JObj entry) →
    typedProperties (entry !! "properties") →
    ∃ m p,
      prepareMap host (Some (JObj pkg)) (Some name) = Returned m
      ∧ properties m = Some p
      ∧ allStrings p.
Proof.
  intros host pkg xpack cfgs entry name Hhost Hname Hx Ht Hb Hc Hte.
  destruct (prepareMap_selected host pkg xpack cfgs entry name)
    as (fb & fo & Hrun & Hfb & Hfo & Hfb0 & Hfo0); try done.
  assert (∀ value flat,
            typedProperties value →
            (∀ obj, value = Some (JObj obj) →
               _joinMultiLineProperties host (Some (JObj obj)) = Returned flat) →
            (_isJsonObject value = false → flat = ∅) →
            allStrings flat) as Hall.
  { intros value flat Htyped Hobj Hnone.
    destruct value as [[| | | | |obj]|];
      try (rewrite Hnone by done; intros ??; by rewrite lookup_empty).
    eapply allStrings_flat; [by apply Htyped|by apply Hobj]. }
  eexists _, _. split; [exact Hrun|]. split; [reflexivity|].
  intros key value [Hkey|[_ Hkey]]%lookup_union_Some_raw.
  - by apply (Hall _ _ Hte Hfo Hfo0 key).
  - by apply (Hall _ _ Ht Hfb Hfb0 key).
Qed.

Lemma prepareMap_properties_are_strings_witness :
  ∃ m p,
    prepareMap Samples.linux Samples.descriptor (Some "dev") = Returned m
    ∧ properties m = Some p
    ∧ allStrings p.
Proof.
  apply (prepareMap_properties_are_strings Samples.linux Samples.manifest
           Samples.xpack Samples.configurations Samples.dev "dev");
    [reflexivity | vm_compute; discriminate | reflexivity
    | apply typedProperties_object, isProperties_singleton
    | reflexivity | reflexivity
    | apply typedProperties_object, isProperties_singleton].
Defined.

(** ** [performSubstitutions] *)

Local Open Scope list_scope.

Section DriverMore.

Variable parseAndRender : string → XpmLiquidMap → Outcome string.
Variable map : XpmLiquidMap.

Lemma chained_head input c rest :
  chained parseAndRender map input (c :: rest) → c = input.
Proof. by intros [-> _]. Qed.

(** The calls that a run adds: a chain from the current string, each on a
    string with a marker. *)
Lemma renderLoop_calls fuel s made :
  ∃ more,
    calls (renderLoop parseAndRender fuel map s s made) = made ++ more
    ∧ chained parseAndRender map s more
    ∧ Forall (fun c => hasMarkers c = true) more.
Proof.
  revert s made. induction fuel as [|fuel IH]; intros s made;
    rewrite renderLoop_unfold; destruct (hasMarkers s) eqn:Hs;
    try (exists []; by rewrite app_nil_r).
  destruct (parseAndRender s map) as [out|e] eqn:Hrender;
    [|exists [s]; split; [done|]; split; [done|by constructor]].
  destruct (String.eqb_spec out s) as [->|Hne];
    [exists [s]; split; [done|]; split; [done|by constructor]|].
  destruct (IH out (made ++ [s])) as (more & -> & Hchain & Hmarkers).
  exists (s :: more). split; [by rewrite <- app_assoc|].
  split; [|by constructor].
  cbn [chained]. split; [done|]. destruct more as [|next more]; [done|].
  apply chained_head in Hchain as Hnext. by subst next.
Qed.

(** What a run returns is what its last call returned. *)
Lemma renderLoop_result fuel s made r :
  match last made with
  | None => True
  | Some c => parseAndRender c map = Returned s
  end →
  ended (renderLoop parseAndRender fuel map s s made) = Some (Returned r) →
  match last (calls (renderLoop parseAndRender fuel map s s made)) with
  | None => r = s
  | Some c => parseAndRender c map = Returned r
  end.
Proof.
  revert s made. induction fuel as [|fuel IH]; intros s made Hmade;
    rewrite renderLoop_unfold; destruct (hasMarkers s) eqn:Hs; cbn [ended calls];
    try discriminate;
    try (intros [= <-]; by destruct (last made)).
  destruct (parseAndRender s map) as [out|e] eqn:Hrender; cbn [ended calls];
    [|discriminate].
  destruct (String.eqb_spec out s) as [->|Hne]; cbn [ended calls].
  - intros [= <-]. by rewrite last_snoc.
  - intros Hend. pose proof (IH out (made ++ [s])) as Hlater.
    rewrite last_snoc in Hlater. specialize (Hlater Hrender Hend).
    destruct (renderLoop_calls fuel out (made ++ [s])) as (more & Hcalls & _).
    destruct (last (calls _)) as [c|] eqn:Hlast; [done|].
    rewrite Hcalls in Hlast. apply last_None in Hlast.
    by destruct made.
Qed.

End DriverMore.

(** X20: the render calls of a run form a chain: the first call is on the
    input, each further call is on what the call before it returned; and
    every call is on a string with a marker: the driver never renders a
    string without [{{] and [{%]. *)
Theorem performSubstitutions_calls_chain :
  ∀ parseAndRender map fuel input,
    chained parseAndRender map input
      (calls (performSubstitutions parseAndRender fuel input map))
    ∧ Forall (fun c => hasMarkers c = true)
        (calls (performSubstitutions parseAndRender fuel input map)).
Proof.
  intros parseAndRender map fuel input. rewrite performSubstitutions_loop.
  destruct (renderLoop_calls parseAndRender map fuel input [])
    as (more & -> & Hchain & Hmarkers).
  by rewrite app_nil_l.
Qed.

(** X21: the string that [performSubstitutions] returns is the output of
    its last render call; it is the input when no call was made. *)
Theorem performSubstitutions_returns_last_output :
  ∀ parseAndRender map fuel input r,
    ended (performSubstitutions parseAndRender fuel input map)
    = Some (Returned r) →
    match last (calls (performSubstitutions parseAndRender fuel input map)) with
    | None => r = input
    | Some c => parseAndRender c map = Returned r
    end.
Proof.
  intros parseAndRender map fuel input r. rewrite performSubstitutions_loop.
  by apply renderLoop_result.
Qed.

Lemma performSubstitutions_returns_last_output_witness :
  Cases.twoPass "{{ b }}" Samples.map = Returned "x".
Proof.
  apply (performSubstitutions_returns_last_output Cases.twoPass Samples.map
           5 "{{ a }}" "x").
  reflexivity.
Defined.

(** X22: [performSubstitutions] is idempotent: run again on a string that
    it returned, it returns that string, after no render call when the
    string has no marker and after one call otherwise. *)
Theorem performSubstitutions_idempotent :
  ∀ parseAndRender map fuel input r,
    ended (performSubstitutions parseAndRender fuel input map)
    = Some (Returned r) →
    ∀ fuel',
      performSubstitutions parseAndRender (S fuel') r map
      = {| ended := Some (Returned r);
           calls := if hasMarkers r then [r] else [] |}.
Proof.
  intros parseAndRender map fuel input r Hend fuel'.
  pose proof (performSubstitutions_shape parseAndRender map fuel input)
    as Hshape.
  rewrite Hend in Hshape.
  rewrite performSubstitutions_loop, renderLoop_unfold.
  destruct Hshape as [[_ ->]|(_ & _ & _ & -> & ->)]; [done|].
  by rewrite String.eqb_refl.
Qed.

Lemma performSubstitutions_idempotent_witness :
  performSubstitutions Cases.twoPass 1 "x" Samples.map
  = {| ended := Some (Returned "x"); calls := [] |}.
Proof.
  apply (performSubstitutions_idempotent Cases.twoPass Samples.map
           5 "{{ a }}" "x").
  reflexivity.
Defined.

(** X23: a template whose expansion is itself a template takes two
    passes: when the input renders to a different string that still has a
    marker, and that one to a different string without markers, the result
    is the latter, after exactly these two render calls. *)
Theorem performSubstitutions_two_passes :
  ∀ parseAndRender map fuel input middle final,
    hasMarkers input = true →
    parseAndRender input map = Returned middle → middle ≠ input →
    hasMarkers middle = true →
    parseAndRender middle map = Returned final → final ≠ middle →
    hasMarkers final = false →
    performSubstitutions parseAndRender (S (S fuel)) input map
    = {| ended := Some (Returned final); calls := [input; middle] |}.
Proof.
  intros parseAndRender map fuel input middle final
    Hi Hrender1 Hne1 Hm Hrender2 Hne2 Hf.
  rewrite performSubstitutions_loop.
  rewrite renderLoop_unfold, Hi, Hrender1.
  apply String.eqb_neq in Hne1 as ->.
  rewrite renderLoop_unfold, Hm, Hrender2.
  apply String.eqb_neq in Hne2 as ->.
  by rewrite renderLoop_unfold, Hf.
Qed.

Lemma performSubstitutions_two_passes_witness :
  performSubstitutions Cases.twoPass 2 "{{ a }}" Samples.map
  = {| ended := Some (Returned "x"); calls := ["{{ a }}"; "{{ b }}"] |}.
Proof.
  apply (performSubstitutions_two_passes Cases.twoPass Samples.map 0
           "{{ a }}" "{{ b }}" "x");
    first [reflexivity | discriminate].
Defined.

(** ** The plugin [rot13] *)

Local Open Scope string_scope.

(** [rot13] works character by character. *)
Lemma rot13_mapChars s : Rot13.rot13 s = mapChars rot13Char s.
Proof.
  unfold Rot13.rot13. induction s as [|c rest IH]; [done|].
  cbn [replaceFromWith mapChars Rot13.letter]. unfold rot13Char.
  destruct (Rot13.isLetter c) eqn:Hc.
  - replace (String.substring 0 1 (String c rest)) with (String c "")
      by (by destruct rest).
    rewrite IH. by cbn [Rot13.rotate].
  - by rewrite IH.
Qed.

Lemma rot13Char_involutive c : rot13Char (rot13Char c) = c.
Proof. destruct c as [[] [] [] [] [] [] [] []]; vm_compute; reflexivity. Qed.

Lemma rot13Char_letter c : Rot13.isLetter (rot13Char c) = Rot13.isLetter c.
Proof. destruct c as [[] [] [] [] [] [] [] []]; vm_compute; reflexivity. Qed.

Lemma rot13Char_other c : Rot13.isLetter c = false → rot13Char c = c.
Proof. unfold rot13Char. by intros ->. Qed.

Lemma rot13Char_posix c : posixClass (rot13Char c) = posixClass c.
Proof. destruct c as [[] [] [] [] [] [] [] []]; vm_compute; reflexivity. Qed.

Lemma rot13Char_win32 c : win32Class (rot13Char c) = win32Class c.
Proof. destruct c as [[] [] [] [] [] [] [] []]; vm_compute; reflexivity. Qed.

Lemma mapChars_involutive f s :
  (∀ c, f (f c) = c) → mapChars f (mapChars f s) = s.
Proof.
  intros Hf. induction s as [|c rest IH]; [done|].
  cbn [mapChars]. by rewrite Hf, IH.
Qed.

(** A character map that respects the class and keeps the dash commutes
    with the first pass of a filter. *)
Lemma firstPass_mapChars inClass f :
  (∀ c, inClass (f c) = inClass c) → f "-"%char = "-"%char →
  ∀ s k,
    Regex.replaceFrom (Regex.negatedClassPlus inClass) "-" k (mapChars f s)
    = mapChars f
        (Regex.replaceFrom (Regex.negatedClassPlus inClass) "-" k s).
Proof.
  intros Hclass Hdash.
  assert (∀ s, Regex.runLength inClass (mapChars f s)
               = Regex.runLength inClass s) as Hrun.
  { induction s as [|c rest IH]; [done|].
    cbn [mapChars Regex.runLength]. by rewrite Hclass, IH. }
  induction s as [|c rest IH]; intros k; [done|].
  cbn [mapChars Regex.replaceFrom]. destruct k as [|k]; [|apply IH].
  unfold Regex.negatedClassPlus.
  change (String (f c) (mapChars f rest)) with (mapChars f (String c rest)).
  rewrite Hrun. destruct (Regex.runLength inClass (String c rest)) as [|n].
  - cbn [mapChars]. by rewrite IH.
  - rewrite IH. change ("-" +:+ ?x) with (String "-" x).
    cbn [mapChars]. by rewrite Hdash.
Qed.

(** X24: [rot13] is its own inverse. *)
Theorem rot13_involutive : ∀ s, Rot13.rot13 (Rot13.rot13 s) = s.
Proof.
  intros s. rewrite !rot13_mapChars.
  apply mapChars_involutive, rot13Char_involutive.
Qed.

(** X25: [rot13] keeps the length of its input, keeps every character that
    is no letter where it is, and puts a letter where there was a
    letter. *)
Theorem rot13_keeps_shape :
  ∀ s,
    String.length (Rot13.rot13 s) = String.length s
    ∧ keepChars (fun c => negb (Rot13.isLetter c)) (Rot13.rot13 s)
      = keepChars (fun c => negb (Rot13.isLetter c)) s
    ∧ mapChars (fun c => if Rot13.isLetter c then "a"%char else c)
        (Rot13.rot13 s)
      = mapChars (fun c => if Rot13.isLetter c then "a"%char else c) s.
Proof.
  intros s. rewrite rot13_mapChars.
  induction s as [|c rest (IHlen & IHkeep & IHmap)]; [done|].
  cbn [mapChars String.length keepChars].
  rewrite rot13Char_letter, IHlen, IHmap.
  split; [done|]. destruct (Rot13.isLetter c) eqn:Hc; cbn [negb].
  - by split.
  - by rewrite (rot13Char_other c Hc), IHkeep.
Qed.

(** X26: [rot13] commutes with the path filters: filtering the rotated
    text gives the rotated filtered text. *)
Theorem rot13_commutes_with_filters :
  ∀ host s,
    filterPosixPath (Rot13.rot13 s) = Rot13.rot13 (filterPosixPath s)
    ∧ filterWin32Path (Rot13.rot13 s) = Rot13.rot13 (filterWin32Path s)
    ∧ filterPath host (Rot13.rot13 s) = Rot13.rot13 (filterPath host s).
Proof.
  intros host s.
  rewrite !filterPath_cases, !filterPosixPath_firstPass,
    !filterWin32Path_firstPass, !rot13_mapChars.
  rewrite (firstPass_mapChars posixClass rot13Char rot13Char_posix eq_refl).
  rewrite (firstPass_mapChars win32Class rot13Char rot13Char_win32 eq_refl).
  by destruct (_ =? _)%string.
Qed.
